(** * webmlive DirectShow sink filters: negotiation, configuration and ingest

    A shallow embedding of
      - [encoder/win/audio_sink_filter.cc]   ([AudioSinkPin], [AudioSinkFilter])
      - [http_client/win/video_sink_filter.cc] ([VideoSinkPin], [VideoSinkFilter])

    Every method is a function from the object's state before the call to an
    [Outcome]: the [HRESULT] returned, the state after the call and the
    observable events (glog lines and callback invocations) in program order.
    The filter lock ([CAutoLock]) serialises the calls; the embedding is the
    sequential behaviour of one call under that lock. *)

From Stdlib Require Import ZArith List String Bool Lia.
From Stdlib Require Import Strings.Byte.
Import ListNotations.

Local Open Scope string_scope.
Local Open Scope Z_scope.

(* ------------------------------------------------------------------------- *)
(** ** Machine integers *)

(** Two's-complement reading of an [n]-bit pattern. *)
Definition wrap_signed (n : Z) (x : Z) : Z :=
  let m := x mod 2 ^ n in
  if m <? 2 ^ (n - 1) then m else m - 2 ^ n.

Definition wrap32 : Z -> Z := wrap_signed 32.
Definition wrap64 : Z -> Z := wrap_signed 64.

(** [abs] of the C library on a 32-bit [LONG]. *)
Definition abs32 (x : Z) : Z := wrap32 (Z.abs x).

(* ------------------------------------------------------------------------- *)
(** ** HRESULT *)

Definition HRESULT := Z.

Definition S_OK : HRESULT := 0.
Definition S_FALSE : HRESULT := 1.
Definition E_FAIL : HRESULT := wrap32 0x80004005.
Definition E_POINTER : HRESULT := wrap32 0x80004003.
Definition E_INVALIDARG : HRESULT := wrap32 0x80070057.
Definition E_OUTOFMEMORY : HRESULT := wrap32 0x8007000E.
Definition VFW_E_TYPE_NOT_ACCEPTED : HRESULT := wrap32 0x8004022A.
Definition VFW_E_NOT_STOPPED : HRESULT := wrap32 0x80040224.
Definition VFW_E_WRONG_STATE : HRESULT := wrap32 0x80040227.
Definition VFW_E_SAMPLE_TIME_NOT_SET : HRESULT := wrap32 0x80040249.
Definition VFW_E_MEDIA_TIME_NOT_SET : HRESULT := wrap32 0x80040251.
Definition VFW_S_NO_MORE_ITEMS : HRESULT := 0x00040103.
Definition VFW_S_NO_STOP_TIME : HRESULT := 0x00040270.

Definition FAILED (hr : HRESULT) : bool := hr <? 0.
Definition SUCCEEDED (hr : HRESULT) : bool := 0 <=? hr.

(* ------------------------------------------------------------------------- *)
(** ** GUIDs *)

Record GUID := mkGUID { Data1 : Z; Data2 : Z; Data3 : Z; Data4 : Z }.

Definition GUID_eqb (a b : GUID) : bool :=
  (Data1 a =? Data1 b) && (Data2 a =? Data2 b) &&
  (Data3 a =? Data3 b) && (Data4 a =? Data4 b).

Definition MAKEFOURCC (c0 c1 c2 c3 : Z) : Z :=
  Z.lor (Z.lor c0 (Z.shiftl c1 8)) (Z.lor (Z.shiftl c2 16) (Z.shiftl c3 24)).

(** The four characters 'I','4','2','0'. *)
Definition FOURCC_I420 : Z := MAKEFOURCC 0x49 0x34 0x32 0x30.

(** GUIDs of the shape [xxxxxxxx-0000-0010-8000-00AA00389B71]. *)
Definition media_guid (d1 : Z) : GUID := mkGUID d1 0x0000 0x0010 0x800000AA00389B71.

Definition MEDIATYPE_Audio : GUID := media_guid 0x73647561.
Definition MEDIATYPE_Video : GUID := media_guid 0x73646976.
Definition MEDIASUBTYPE_PCM : GUID := media_guid 0x00000001.
Definition MEDIASUBTYPE_IEEE_FLOAT : GUID := media_guid 0x00000003.
Definition MEDIASUBTYPE_I420 : GUID := media_guid FOURCC_I420.
Definition MEDIASUBTYPE_RGB24 : GUID :=
  mkGUID 0xe436eb7d 0x524f 0x11ce 0x9f530020af0ba770.
Definition FORMAT_WaveFormatEx : GUID :=
  mkGUID 0x05589f81 0xc356 0x11ce 0xbf0100aa0055595a.
Definition FORMAT_VideoInfo : GUID :=
  mkGUID 0x05589f80 0xc356 0x11ce 0xbf0100aa0055595a.
Definition FORMAT_VideoInfo2 : GUID :=
  mkGUID 0xf72a76a0 0xeb0a 0x11d0 0xace40000c0cc16ba.
Definition FORMAT_None : GUID :=
  mkGUID 0x0f6417d6 0xc318 0x11d0 0xa43f00a0c911ce86.

Definition WAVE_FORMAT_PCM : Z := 0x0001.
Definition WAVE_FORMAT_IEEE_FLOAT : Z := 0x0003.
Definition WAVE_FORMAT_EXTENSIBLE : Z := 0xFFFE.

(* ------------------------------------------------------------------------- *)
(** ** Media types *)

(** The fields of [BITMAPINFOHEADER] that negotiation reads. *)
Record BITMAPINFOHEADER := mkBMI { biWidth : Z; biHeight : Z; biCompression : Z }.

(** The record [AudioMediaType] exposes through its accessors: the fields of
    a [WAVEFORMATEXTENSIBLE]. *)
Module AudioMediaType.
Record t := mk {
  format_tag : Z;
  channels : Z;
  sample_rate : Z;
  bytes_per_second : Z;
  block_align : Z;
  bits_per_sample : Z;
  valid_bits_per_sample : Z;
  channel_mask : Z
}.
End AudioMediaType.

(** The format block behind [CMediaType::Format()].  The sinks read it through
    a [reinterpret_cast]; each field below is what one of the casts sees: the
    [bmiHeader] of a [VIDEOINFOHEADER], the [bmiHeader] of a
    [VIDEOINFOHEADER2], and the wave format record. *)
Record FormatBlock := mkFormatBlock {
  as_VIDEOINFOHEADER : BITMAPINFOHEADER;
  as_VIDEOINFOHEADER2 : BITMAPINFOHEADER;
  as_WAVEFORMATEXTENSIBLE : AudioMediaType.t
}.

(** [CMediaType] as the sinks observe it.  The three GUID accessors and
    [Format()] return pointers that the code tests against NULL: [None] is the
    null pointer. *)
Record CMediaType := mkMediaType {
  MajorType : option GUID;            (* Type() *)
  Subtype : option GUID;
  FormatType : option GUID;
  bTemporalCompression : bool;
  Format : option FormatBlock
}.

Definition SetType (g : GUID) (m : CMediaType) : CMediaType :=
  mkMediaType (Some g) (Subtype m) (FormatType m) (bTemporalCompression m) (Format m).
Definition SetFormatType (g : GUID) (m : CMediaType) : CMediaType :=
  mkMediaType (MajorType m) (Subtype m) (Some g) (bTemporalCompression m) (Format m).
Definition SetSubtype (g : GUID) (m : CMediaType) : CMediaType :=
  mkMediaType (MajorType m) (Some g) (FormatType m) (bTemporalCompression m) (Format m).


(* ------------------------------------------------------------------------- *)
(** ** Configurations and buffers *)

Record AudioConfig := mkAudioConfig {
  format_tag : Z;
  channels : Z;
  sample_rate : Z;
  bytes_per_second : Z;
  block_align : Z;
  bits_per_sample : Z;
  valid_bits_per_sample : Z;
  channel_mask : Z
}.

(** Modelled from the spec: the value-initialised [AudioConfig()] of
    the absent header; the empty descriptor has every field at zero. *)
Definition AudioConfig_default : AudioConfig := mkAudioConfig 0 0 0 0 0 0 0 0.

Record VideoConfig := mkVideoConfig { width : Z; height : Z }.

(** Modelled from the spec: [WebmEncoderConfig::VideoCaptureConfig()] of the
    absent header; the empty descriptor has both dimensions at zero. *)
Definition VideoConfig_default : VideoConfig := mkVideoConfig 0 0.

(** The single sample slot of the audio filter: bytes, millisecond timestamp
    and duration, and the configuration in effect at capture time. *)
Record AudioBuffer := mkAudioBuffer {
  buffer_config : AudioConfig;
  timestamp : Z;
  duration : Z;
  buffer : list byte
}.

(** The single frame slot of the video filter. *)
Record VideoFrame := mkVideoFrame {
  frame_width : Z;
  frame_height : Z;
  frame_timestamp : Z;
  frame_buffer : list byte
}.

(** [IMediaSample]: what each method the sinks call answers for one sample.
    A [BYTE*] is [None] when null, else the bytes it points to. *)
Record IMediaSample := mkSample {
  GetPointer : HRESULT * option (list byte);
  GetActualDataLength : Z;
  GetTime : HRESULT * Z * Z;
  GetMediaTime : HRESULT * Z * Z
}.

Definition is_null {A : Type} (p : option A) : bool :=
  match p with None => true | Some _ => false end.

Inductive FILTER_STATE := State_Stopped | State_Paused | State_Running.

Definition is_stopped (s : FILTER_STATE) : bool :=
  match s with State_Stopped => true | _ => false end.

(* ------------------------------------------------------------------------- *)
(** ** Observable events and outcomes *)

Inductive Severity := INFO | WARNING | ERROR.

Inductive Event :=
| LOG (sev : Severity) (msg : string)
    (* a glog line; the streamed values after the literal text are dropped *)
| SamplesCallback (b : AudioBuffer) (status : Z).
    (* ptr_samples_callback_->OnSamplesReceived(&sample_buffer_) and its answer *)

Definition is_callback (e : Event) : bool :=
  match e with SamplesCallback _ _ => true | LOG _ _ => false end.

Definition callback_count (l : list Event) : nat :=
  List.length (filter is_callback l).

Record Outcome (S : Type) := mkOutcome {
  result : HRESULT;
  post : S;
  events : list Event
}.
Arguments mkOutcome {S} _ _ _.
Arguments result {S} _.
Arguments post {S} _.
Arguments events {S} _.

(* ------------------------------------------------------------------------- *)
(** ** Time conversion *)

(** Modelled from the spec: the tick count of one millisecond in the
    100-nanosecond [REFERENCE_TIME] base, the fixed conversion constant of
    the absent [dshow_util.h]. *)
Definition kMediaTimeTicksPerMillisecond : Z := 10000.

(** Modelled from the spec: [media_time_to_milliseconds] of the absent
    [dshow_util.h]: device ticks to milliseconds by a fixed constant,
    truncating (C++ integer division on [int64], which rounds toward zero
    and cannot leave the [int64] range for a divisor above one). *)
Definition media_time_to_milliseconds (media_time : Z) : Z :=
  Z.quot media_time kMediaTimeTicksPerMillisecond.

(* ------------------------------------------------------------------------- *)
(** ** encoder/win/audio_sink_filter.cc *)

Module Audio.

Record AudioSinkPin := mkPin {
  actual_config_ : AudioConfig;
  requested_config_ : AudioConfig
}.

Record AudioSinkFilter := mkFilter {
  m_State : FILTER_STATE;
  sink_pin_ : AudioSinkPin;
  sample_buffer_ : AudioBuffer
}.

(** Modelled from the spec: [kNumInputSubTypes] of the absent header, the
    count of supported audio sub-kinds and the declared length of
    [kInputSubTypes]. *)
Definition kNumInputSubTypes : Z := 2.

Definition kInputSubTypes : list GUID :=
  [MEDIASUBTYPE_IEEE_FLOAT; MEDIASUBTYPE_PCM].

Section Pin.

(** Whatever the GUID-sized memory after the last element of
    [kInputSubTypes] holds: what [kInputSubTypes[i]] denotes once [i] leaves
    the table. *)
Variable past_the_table : GUID.

(** [AudioMediaType::Init] of the absent [media_type_dshow.h]: the status and
    the parsed record. *)
Variable AudioMediaType_Init : CMediaType -> Z * AudioMediaType.t.

Definition AudioSinkPin_GetMediaType (type_index : Z)
    (ptr_media_type : option CMediaType) : HRESULT * option CMediaType :=
  match ptr_media_type with
  | None => (E_INVALIDARG, None)
  | Some m =>
      if type_index <? 0 then (E_INVALIDARG, Some m)
      else if type_index >? kNumInputSubTypes then (VFW_S_NO_MORE_ITEMS, Some m)
      else
        let m1 := SetType MEDIATYPE_Audio m in
        let m2 := SetFormatType FORMAT_WaveFormatEx m1 in
        let m3 := SetSubtype
                    (nth (Z.to_nat type_index) kInputSubTypes past_the_table) m2 in
        (S_OK, Some m3)
  end.

(** The loop [for (i = 0; i < kNumInputSubTypes; ++i)] over the table. *)
Definition subtype_ok (subtype_guid : GUID) : bool :=
  existsb
    (fun i => match nth_error kInputSubTypes i with
              | Some g => GUID_eqb subtype_guid g
              | None => false
              end)
    (seq 0 (Z.to_nat kNumInputSubTypes)).

Definition format_tag_supported (tag : Z) : bool :=
  (tag =? WAVE_FORMAT_PCM) || (tag =? WAVE_FORMAT_IEEE_FLOAT) ||
  (tag =? WAVE_FORMAT_EXTENSIBLE).

(** The assignments of lines 112-135 to [actual_config_]. *)
Definition store_format (old : AudioConfig) (format : AudioMediaType.t)
    : AudioConfig :=
  let extensible := AudioMediaType.format_tag format =? WAVE_FORMAT_EXTENSIBLE in
  {| format_tag := AudioMediaType.format_tag format;
     channels := AudioMediaType.channels format;
     sample_rate := AudioMediaType.sample_rate format;
     bytes_per_second := AudioMediaType.bytes_per_second format;
     block_align := AudioMediaType.block_align format;
     bits_per_sample := AudioMediaType.bits_per_sample format;
     valid_bits_per_sample :=
       if extensible then AudioMediaType.valid_bits_per_sample format
       else valid_bits_per_sample old;
     channel_mask :=
       if extensible then AudioMediaType.channel_mask format
       else channel_mask old |}.

Definition AudioSinkPin_CheckMediaType (pin : AudioSinkPin)
    (ptr_media_type : CMediaType) : Outcome AudioSinkPin :=
  match MajorType ptr_media_type with
  | None =>
      mkOutcome VFW_E_TYPE_NOT_ACCEPTED pin
        [LOG INFO "rejecting type: majortype not audio."]
  | Some type_guid =>
  if negb (GUID_eqb type_guid MEDIATYPE_Audio) then
    mkOutcome VFW_E_TYPE_NOT_ACCEPTED pin
      [LOG INFO "rejecting type: majortype not audio."]
  else if bTemporalCompression ptr_media_type then
    mkOutcome VFW_E_TYPE_NOT_ACCEPTED pin
      [LOG INFO "rejecting type: compressed audio."]
  else
  match Subtype ptr_media_type, FormatType ptr_media_type with
  | Some subtype_guid, Some format_guid =>
      let l1 :=
        if negb (GUID_eqb format_guid FORMAT_WaveFormatEx)
        then [LOG INFO "rejecting type: format not FORMAT_WaveFormatEx."]
        else [] in
      if negb (subtype_ok subtype_guid) then
        mkOutcome VFW_E_TYPE_NOT_ACCEPTED pin
          (l1 ++ [LOG INFO "rejecting type: subtype not found in kInputSubTypes."])
      else
      let '(status, format) := AudioMediaType_Init ptr_media_type in
      if negb (status =? 0) then
        mkOutcome E_INVALIDARG pin
          (l1 ++ [LOG INFO "invalid media type: AudioMediaType Init failed. "])
      else if negb (format_tag_supported (AudioMediaType.format_tag format)) then
        mkOutcome VFW_E_TYPE_NOT_ACCEPTED pin
          (l1 ++ [LOG INFO "rejecting type: format tag not supported. "])
      else
        mkOutcome S_OK
          (mkPin (store_format (actual_config_ pin) format) (requested_config_ pin))
          (l1 ++ [LOG INFO "CheckMediaType actual audio settings"])
  | _, _ =>
      mkOutcome E_INVALIDARG pin
        [LOG INFO "invalid media type: missing subtype or formattype."]
  end
  end.

(** Copies [actual_config_] to [*ptr_config]; [ptr_config] is [None] for a
    null pointer, else what it points to.  The second component is the
    pointee after the call. *)
Definition AudioSinkPin_config (pin : AudioSinkPin)
    (ptr_config : option AudioConfig) : Outcome AudioSinkPin * option AudioConfig :=
  match ptr_config with
  | None => (mkOutcome E_POINTER pin [], None)
  | Some _ => (mkOutcome S_OK pin [], Some (actual_config_ pin))
  end.

Definition AudioSinkPin_set_config (pin : AudioSinkPin) (config : AudioConfig)
    : Outcome AudioSinkPin :=
  mkOutcome S_OK (mkPin AudioConfig_default config) [].

End Pin.

Section Filter.

(** [CBaseInputPin::Receive] of the DirectShow base classes: the status it
    answers for a sample in the filter's current run state. *)
Variable CBaseInputPin_Receive : FILTER_STATE -> IMediaSample -> HRESULT.

(** [AudioBuffer::Init] of the absent buffer class, called on the filter's
    [sample_buffer_] with the configuration, timestamp, duration, byte
    pointer and length: the status and the buffer after the call. *)
Variable AudioBuffer_Init :
  AudioBuffer -> AudioConfig -> Z -> Z -> option (list byte) -> Z -> Z * AudioBuffer.

(** [AudioSamplesCallbackInterface::OnSamplesReceived] of the registered
    consumer: the status it answers for a buffer. *)
Variable ptr_samples_callback_ : AudioBuffer -> Z.

Definition AudioSinkFilter_config (f : AudioSinkFilter)
    (ptr_config : option AudioConfig)
    : Outcome AudioSinkFilter * option AudioConfig :=
  let '(o, out) := AudioSinkPin_config (sink_pin_ f) ptr_config in
  (mkOutcome (result o) (mkFilter (m_State f) (post o) (sample_buffer_ f)) (events o),
   out).

Definition AudioSinkFilter_set_config (f : AudioSinkFilter) (config : AudioConfig)
    : Outcome AudioSinkFilter :=
  if negb (is_stopped (m_State f)) then mkOutcome VFW_E_NOT_STOPPED f []
  else
    let o := AudioSinkPin_set_config (sink_pin_ f) config in
    mkOutcome (result o) (mkFilter (m_State f) (post o) (sample_buffer_ f)) (events o).

(** Lines 265-269: the duration, and the warning of a sample without stop
    time. *)
Definition sample_duration (hr : HRESULT) (timestamp end_time : Z) : Z :=
  if negb (hr =? VFW_S_NO_STOP_TIME)
  then wrap64 (media_time_to_milliseconds end_time - timestamp)
  else 0.

Definition no_stop_time_warning (hr : HRESULT) : list Event :=
  if negb (hr =? VFW_S_NO_STOP_TIME) then []
  else [LOG WARNING "OnSamplesReceived sample has no stop time."].

Definition AudioSinkFilter_OnSamplesReceived (f : AudioSinkFilter)
    (ptr_sample : option IMediaSample) : Outcome AudioSinkFilter :=
  match ptr_sample with
  | None => mkOutcome E_POINTER f []
  | Some sample =>
  let '(hr, ptr_sample_buffer) := GetPointer sample in
  let sample_length := GetActualDataLength sample in
  if FAILED hr || is_null ptr_sample_buffer || (sample_length <=? 0) then
    mkOutcome (if hr =? S_OK then E_FAIL else hr) f
      [LOG ERROR "OnSamplesReceived called with empty sample."]
  else
  let '(hr, start_time, end_time) := GetTime sample in
  if FAILED hr then
    mkOutcome hr f [LOG ERROR "OnSamplesReceived cannot get media time(s)."]
  else
  let timestamp := media_time_to_milliseconds start_time in
  let duration := sample_duration hr timestamp end_time in
  let l1 := no_stop_time_warning hr in
  let '(status, sample_buffer) :=
    AudioBuffer_Init (sample_buffer_ f) (actual_config_ (sink_pin_ f))
      timestamp duration ptr_sample_buffer sample_length in
  let f' := mkFilter (m_State f) (sink_pin_ f) sample_buffer in
  if negb (status =? 0) then
    mkOutcome E_FAIL f'
      (l1 ++ [LOG ERROR "OnSamplesReceived sample buffer init failed: "])
  else
  let status := ptr_samples_callback_ sample_buffer in
  mkOutcome S_OK f'
    (l1 ++ [LOG INFO "OnSamplesReceived"; SamplesCallback sample_buffer status]
        ++ (if negb (status =? 0)
            then [LOG ERROR "OnSamplesReceived failed, status="]
            else []))
  end.

(** [ptr_sample] is never null here: [CHECK_NOTNULL] aborts the process on a
    null sample before anything else happens. *)
Definition AudioSinkPin_Receive (f : AudioSinkFilter) (ptr_sample : IMediaSample)
    : Outcome AudioSinkFilter :=
  let hr := CBaseInputPin_Receive (m_State f) ptr_sample in
  if FAILED hr then
    mkOutcome hr f
      (if negb (hr =? VFW_E_WRONG_STATE)
       then [LOG ERROR "CBaseInputPin::Receive failed. "]
       else [])
  else
    let o := AudioSinkFilter_OnSamplesReceived f (Some ptr_sample) in
    mkOutcome S_OK (post o)
      (events o ++ (if FAILED (result o)
                    then [LOG ERROR "OnSamplesReceived failed. "]
                    else [])).

(** The upstream source pushing samples one at a time: the status and the
    events of each delivery, in order. *)
Fixpoint upstream_push (f : AudioSinkFilter) (samples : list IMediaSample)
    : list (HRESULT * list Event) :=
  match samples with
  | [] => []
  | s :: rest =>
      let o := AudioSinkPin_Receive f s in
      (result o, events o) :: upstream_push (post o) rest
  end.

End Filter.

(** The constructor, as far as [*ptr_result] and [sink_pin_] go.
    [ptr_samples_callback] is [None] for a null pointer; [pin_allocated]
    tells whether [new (std::nothrow) AudioSinkPin] returned an object.  The
    second component is [sink_pin_] after the constructor: [None] while the
    [scoped_ptr] is empty. *)
Definition AudioSinkFilter_new (ptr_samples_callback : option (AudioBuffer -> Z))
    (pin_allocated : bool) : HRESULT * option AudioSinkPin :=
  match ptr_samples_callback with
  | None => (E_INVALIDARG, None)
  | Some _ =>
      let sink_pin :=
        if pin_allocated
        then Some (mkPin AudioConfig_default AudioConfig_default)
        else None in
      if is_null sink_pin then (E_OUTOFMEMORY, sink_pin) else (S_OK, sink_pin)
  end.

(** [GetPin] on the content of [sink_pin_]. *)
Definition AudioSinkFilter_GetPin (sink_pin : option AudioSinkPin) (index : Z)
    : option AudioSinkPin :=
  if index =? 0 then sink_pin else None.

End Audio.

(* ------------------------------------------------------------------------- *)
(** ** http_client/win/video_sink_filter.cc *)

(** The [VIDEOINFOHEADER] that [VideoSinkPin::GetMediaType] fills in, with
    every member. *)
Module VIH.

Record RECT := mkRECT { left : Z; top : Z; right : Z; bottom : Z }.

Record BITMAPINFOHEADER := mkBMI {
  biSize : Z;
  biWidth : Z;
  biHeight : Z;
  biPlanes : Z;
  biBitCount : Z;
  biCompression : Z;
  biSizeImage : Z;
  biXPelsPerMeter : Z;
  biYPelsPerMeter : Z;
  biClrUsed : Z;
  biClrImportant : Z
}.

Record t := mk {
  rcSource : RECT;
  rcTarget : RECT;
  dwBitRate : Z;
  dwBitErrorRate : Z;
  AvgTimePerFrame : Z;
  bmiHeader : BITMAPINFOHEADER
}.

(** [ZeroMemory(ptr_video_info, sizeof(VIDEOINFOHEADER))]. *)
Definition zero : t :=
  mk (mkRECT 0 0 0 0) (mkRECT 0 0 0 0) 0 0 0 (mkBMI 0 0 0 0 0 0 0 0 0 0 0).

(** [sizeof(BITMAPINFOHEADER)]. *)
Definition sizeof_BITMAPINFOHEADER : Z := 40.

End VIH.

(** The members of a header that negotiation reads. *)
Definition header_read (h : VIH.BITMAPINFOHEADER) : BITMAPINFOHEADER :=
  mkBMI (VIH.biWidth h) (VIH.biHeight h) (VIH.biCompression h).

(** The header a video proposal is judged by, for the two supported
    layout-kinds. *)
Definition video_view (format_guid : GUID) (fb : FormatBlock) : BITMAPINFOHEADER :=
  if GUID_eqb format_guid FORMAT_VideoInfo
  then as_VIDEOINFOHEADER fb else as_VIDEOINFOHEADER2 fb.

Module Video.

Record VideoSinkPin := mkPin {
  actual_config_ : VideoConfig;
  requested_config_ : VideoConfig
}.

Record VideoSinkFilter := mkFilter {
  m_State : FILTER_STATE;
  sink_pin_ : VideoSinkPin;
  frame_ : VideoFrame
}.

(** One arm of the [if (format_guid == ...)] chain: the [bmiHeader] seen
    through the cast, or [None] when [Format()] is null. *)
Definition check_video_info (pin : VideoSinkPin) (subtype_guid : GUID)
    (ptr_video_info : option BITMAPINFOHEADER) : Outcome VideoSinkPin :=
  match ptr_video_info with
  | None => mkOutcome VFW_E_TYPE_NOT_ACCEPTED pin []
  | Some bmiHeader =>
      let four_cc := biCompression bmiHeader in
      if negb (GUID_eqb subtype_guid MEDIASUBTYPE_I420) ||
         negb (four_cc =? MAKEFOURCC 0x49 0x34 0x32 0x30)
      then mkOutcome VFW_E_TYPE_NOT_ACCEPTED pin []
      else
        mkOutcome S_OK
          (mkPin (mkVideoConfig (biWidth bmiHeader) (abs32 (biHeight bmiHeader)))
                 (requested_config_ pin))
          [LOG INFO " CheckMediaType actual settings"]
  end.

Definition VideoSinkPin_CheckMediaType (pin : VideoSinkPin)
    (ptr_media_type : CMediaType) : Outcome VideoSinkPin :=
  match MajorType ptr_media_type with
  | None => mkOutcome VFW_E_TYPE_NOT_ACCEPTED pin []
  | Some type_guid =>
  if negb (GUID_eqb type_guid MEDIATYPE_Video) then
    mkOutcome VFW_E_TYPE_NOT_ACCEPTED pin []
  else
  match Subtype ptr_media_type, FormatType ptr_media_type with
  | Some subtype_guid, Some format_guid =>
      if GUID_eqb format_guid FORMAT_VideoInfo then
        check_video_info pin subtype_guid
          (option_map as_VIDEOINFOHEADER (Format ptr_media_type))
      else if GUID_eqb format_guid FORMAT_VideoInfo2 then
        check_video_info pin subtype_guid
          (option_map as_VIDEOINFOHEADER2 (Format ptr_media_type))
      else
        mkOutcome S_OK pin [LOG INFO " CheckMediaType actual settings"]
  | _, _ => mkOutcome E_INVALIDARG pin []
  end
  end.

Section Enumerate.

(** [kI420BitCount] of the absent [video_types.h]. *)
Variable kI420BitCount : Z.

(** The [DIBSIZE] macro of the DirectShow base classes on a header. *)
Variable DIBSIZE : VIH.BITMAPINFOHEADER -> Z.

(** What the [VIDEOINFOHEADER2] cast and the wave-format cast would see in
    the freshly allocated [VIDEOINFOHEADER] block. *)
Variable other_casts : BITMAPINFOHEADER * AudioMediaType.t.

(** [ptr_media_type] is dereferenced without a test, so it is not null here.
    [format_buffer] tells whether [AllocFormatBuffer] returned a block.  The
    state of the outcome is the media type after the call together with
    what was written behind it: the [VIDEOINFOHEADER] in the new block and
    the sample size, or [None] when nothing was written. *)
Definition VideoSinkPin_GetMediaType (pin : VideoSinkPin) (type_index : Z)
    (ptr_media_type : CMediaType) (format_buffer : bool)
    : Outcome (CMediaType * option (VIH.t * Z)) :=
  if negb (type_index =? 0) then
    mkOutcome VFW_S_NO_MORE_ITEMS (ptr_media_type, None) []
  else if negb format_buffer then
    mkOutcome E_OUTOFMEMORY (ptr_media_type, None)
      [LOG ERROR "VIDEOINFOHEADER alloc failed."]
  else
    let h0 := VIH.bmiHeader VIH.zero in
    let h1 :=
      VIH.mkBMI VIH.sizeof_BITMAPINFOHEADER
        (width (requested_config_ pin)) (height (requested_config_ pin))
        1 kI420BitCount (MAKEFOURCC 0x49 0x34 0x32 0x30)
        (VIH.biSizeImage h0) (VIH.biXPelsPerMeter h0) (VIH.biYPelsPerMeter h0)
        (VIH.biClrUsed h0) (VIH.biClrImportant h0) in
    let h2 :=
      VIH.mkBMI (VIH.biSize h1) (VIH.biWidth h1) (VIH.biHeight h1)
        (VIH.biPlanes h1) (VIH.biBitCount h1) (VIH.biCompression h1)
        (DIBSIZE h1) (VIH.biXPelsPerMeter h1) (VIH.biYPelsPerMeter h1)
        (VIH.biClrUsed h1) (VIH.biClrImportant h1) in
    let video_info :=
      VIH.mk (VIH.mkRECT 0 0 0 0) (VIH.mkRECT 0 0 0 0)
        (VIH.dwBitRate VIH.zero) (VIH.dwBitErrorRate VIH.zero)
        (VIH.AvgTimePerFrame VIH.zero) h2 in
    let block := mkFormatBlock (header_read h2) (fst other_casts) (snd other_casts) in
    let m := mkMediaType (Some MEDIATYPE_Video) (Some MEDIASUBTYPE_I420)
               (Some FORMAT_VideoInfo) false (Some block) in
    mkOutcome S_OK (m, Some (video_info, VIH.biSizeImage h2))
      [LOG INFO " GetMediaType type_index="].

End Enumerate.

Definition VideoSinkPin_config (pin : VideoSinkPin)
    (ptr_config : option VideoConfig) : Outcome VideoSinkPin * option VideoConfig :=
  match ptr_config with
  | None => (mkOutcome E_POINTER pin [], None)
  | Some _ => (mkOutcome S_OK pin [], Some (actual_config_ pin))
  end.

Definition VideoSinkPin_set_config (pin : VideoSinkPin) (config : VideoConfig)
    : Outcome VideoSinkPin :=
  mkOutcome S_OK (mkPin VideoConfig_default config) [].

Section Filter.

Variable CBaseInputPin_Receive : FILTER_STATE -> IMediaSample -> HRESULT.

(** [VideoFrame::InitI420] of the absent [video_types.h], called on the
    filter's [frame_] with width, height, timestamp, byte pointer and
    length: the status and the frame after the call. *)
Variable VideoFrame_InitI420 :
  VideoFrame -> Z -> Z -> Z -> option (list byte) -> Z -> Z * VideoFrame.

Definition VideoSinkFilter_config (f : VideoSinkFilter)
    (ptr_config : option VideoConfig)
    : Outcome VideoSinkFilter * option VideoConfig :=
  let '(o, out) := VideoSinkPin_config (sink_pin_ f) ptr_config in
  (mkOutcome (result o) (mkFilter (m_State f) (post o) (frame_ f)) (events o), out).

Definition VideoSinkFilter_set_config (f : VideoSinkFilter) (config : VideoConfig)
    : Outcome VideoSinkFilter :=
  if negb (is_stopped (m_State f)) then mkOutcome VFW_E_NOT_STOPPED f []
  else
    let o := VideoSinkPin_set_config (sink_pin_ f) config in
    mkOutcome (result o) (mkFilter (m_State f) (post o) (frame_ f)) (events o).

Definition VideoSinkFilter_OnFrameReceived (f : VideoSinkFilter)
    (ptr_sample : option IMediaSample) : Outcome VideoSinkFilter :=
  match ptr_sample with
  | None => mkOutcome E_POINTER f []
  | Some sample =>
  let '(hr, ptr_sample_buffer) := GetPointer sample in
  if FAILED hr || is_null ptr_sample_buffer then
    mkOutcome (if hr =? S_OK then E_FAIL else hr) f
      [LOG ERROR "OnFrameReceived called with empty sample."]
  else
  let '(hr, start_time, end_time) := GetMediaTime sample in
  if FAILED hr then
    mkOutcome hr f [LOG ERROR "OnFrameReceived cannot get media time(s)."]
  else
  let width := width (actual_config_ (sink_pin_ f)) in
  let height := height (actual_config_ (sink_pin_ f)) in
  let '(status, frame) :=
    VideoFrame_InitI420 (frame_ f) width height start_time ptr_sample_buffer
      (GetActualDataLength sample) in
  let f' := mkFilter (m_State f) (sink_pin_ f) frame in
  if negb (status =? 0) then
    mkOutcome E_FAIL f' [LOG ERROR "OnFrameReceived frame init failed: "]
  else
    mkOutcome S_OK f' [LOG INFO "OnFrameReceived received a frame:"]
  end.

Definition VideoSinkPin_Receive (f : VideoSinkFilter) (ptr_sample : IMediaSample)
    : Outcome VideoSinkFilter :=
  let hr := CBaseInputPin_Receive (m_State f) ptr_sample in
  if SUCCEEDED hr then VideoSinkFilter_OnFrameReceived f (Some ptr_sample)
  else mkOutcome hr f [].

Fixpoint upstream_push (f : VideoSinkFilter) (samples : list IMediaSample)
    : list (HRESULT * list Event) :=
  match samples with
  | [] => []
  | s :: rest =>
      let o := VideoSinkPin_Receive f s in
      (result o, events o) :: upstream_push (post o) rest
  end.

End Filter.

(** The constructor, as far as [*ptr_result] and [sink_pin_] go;
    [ptr_frame_callback] tells whether the callback pointer is non-null. *)
Definition VideoSinkFilter_new (ptr_frame_callback : bool) (pin_allocated : bool)
    : HRESULT * option VideoSinkPin :=
  if negb ptr_frame_callback then (E_INVALIDARG, None)
  else
    let sink_pin :=
      if pin_allocated
      then Some (mkPin VideoConfig_default VideoConfig_default)
      else None in
    if is_null sink_pin then (E_OUTOFMEMORY, sink_pin) else (S_OK, sink_pin).

Definition VideoSinkFilter_GetPin (sink_pin : option VideoSinkPin) (index : Z)
    : option VideoSinkPin :=
  if index =? 0 then sink_pin else None.

End Video.

(* ------------------------------------------------------------------------- *)
(** ** Instances of the collaborators

    The sinks are verified against arbitrary collaborators; the instances
    below let the development be run on concrete inputs. *)

(** Modelled from the spec: [AudioMediaType::Init] of the absent
    [media_type_dshow.h]: the payload parses into the extended format record
    when the media type carries a format block, and fails otherwise. *)
Definition AudioMediaType_Init_model (m : CMediaType) : Z * AudioMediaType.t :=
  match Format m with
  | Some fb => (0, as_WAVEFORMATEXTENSIBLE fb)
  | None => (-1, AudioMediaType.mk 0 0 0 0 0 0 0 0)
  end.

(** Modelled from the spec: [AudioBuffer::Init] of the absent buffer class:
    the slot is overwritten with a copy of [length] bytes of the payload,
    stamped with timestamp, duration and the configuration by value; a copy
    that cannot be made fails and leaves the slot as it was. *)
Definition AudioBuffer_Init_model (b : AudioBuffer) (config : AudioConfig)
    (timestamp duration : Z) (ptr_data : option (list byte)) (length : Z)
    : Z * AudioBuffer :=
  match ptr_data with
  | Some bytes =>
      if (0 <? length) && (length <=? Z.of_nat (List.length bytes))
      then (0, mkAudioBuffer config timestamp duration
                 (firstn (Z.to_nat length) bytes))
      else (-1, b)
  | None => (-1, b)
  end.

(** Modelled from the spec: [VideoFrame::InitI420] of the absent
    [video_types.h]: the frame slot is overwritten with a copy of [length]
    bytes tagged with width, height and the start timestamp. *)
Definition VideoFrame_InitI420_model (fr : VideoFrame) (width height : Z)
    (timestamp : Z) (ptr_data : option (list byte)) (length : Z)
    : Z * VideoFrame :=
  match ptr_data with
  | Some bytes =>
      if (0 <? length) && (length <=? Z.of_nat (List.length bytes))
      then (0, mkVideoFrame width height timestamp
                 (firstn (Z.to_nat length) bytes))
      else (-1, fr)
  | None => (-1, fr)
  end.

(** A base pin that refuses samples while the filter is stopped. *)
Definition CBaseInputPin_Receive_model (st : FILTER_STATE) (_ : IMediaSample)
    : HRESULT :=
  match st with
  | State_Stopped => VFW_E_WRONG_STATE
  | _ => S_OK
  end.

(** A consumer that accepts every buffer, and one that refuses every buffer. *)
Definition callback_ok (_ : AudioBuffer) : Z := 0.
Definition callback_broken (_ : AudioBuffer) : Z := 1.

(** Concrete media types, pins, filters and samples. *)
Definition bmi_I420_640x480 : BITMAPINFOHEADER := mkBMI 640 (-480) FOURCC_I420.

(** A top-down 640x480 I420 proposal described by a [VIDEOINFOHEADER]. *)
Definition mt_video_I420 : CMediaType :=
  mkMediaType (Some MEDIATYPE_Video) (Some MEDIASUBTYPE_I420)
    (Some FORMAT_VideoInfo) false
    (Some (mkFormatBlock bmi_I420_640x480 (mkBMI 0 0 0)
             (AudioMediaType.mk 0 0 0 0 0 0 0 0))).

Definition wave_pcm_stereo : AudioMediaType.t :=
  AudioMediaType.mk WAVE_FORMAT_PCM 2 44100 176400 4 16 0 0.

Definition wave_extensible_stereo : AudioMediaType.t :=
  AudioMediaType.mk WAVE_FORMAT_EXTENSIBLE 2 48000 288000 6 24 24 3.

Definition block_of_wave (w : AudioMediaType.t) : FormatBlock :=
  mkFormatBlock (mkBMI 0 0 0) (mkBMI 0 0 0) w.

Definition mt_audio (subtype : GUID) (w : AudioMediaType.t) : CMediaType :=
  mkMediaType (Some MEDIATYPE_Audio) (Some subtype) (Some FORMAT_WaveFormatEx)
    false (Some (block_of_wave w)).

Definition mt_pcm : CMediaType := mt_audio MEDIASUBTYPE_PCM wave_pcm_stereo.
Definition mt_extensible : CMediaType :=
  mt_audio MEDIASUBTYPE_PCM wave_extensible_stereo.
Definition mt_audio_rgb24 : CMediaType :=
  mt_audio MEDIASUBTYPE_RGB24 wave_pcm_stereo.

(** A video proposal in RGB24 whose format block is declared as [FORMAT_None]. *)
Definition mt_video_rgb24_no_format : CMediaType :=
  mkMediaType (Some MEDIATYPE_Video) (Some MEDIASUBTYPE_RGB24) (Some FORMAT_None)
    false None.

Definition audio_pin_empty : Audio.AudioSinkPin :=
  Audio.mkPin AudioConfig_default AudioConfig_default.

Definition audio_buffer_empty : AudioBuffer :=
  mkAudioBuffer AudioConfig_default 0 0 [].

Definition audio_filter_running : Audio.AudioSinkFilter :=
  Audio.mkFilter State_Running audio_pin_empty audio_buffer_empty.

Definition video_pin_empty : Video.VideoSinkPin :=
  Video.mkPin VideoConfig_default VideoConfig_default.

Definition video_filter_running : Video.VideoSinkFilter :=
  Video.mkFilter State_Running video_pin_empty (mkVideoFrame 0 0 0 []).

Definition four_bytes : list byte := [x00; x01; x02; x03].

(** A sample whose byte pointer is null. *)
Definition sample_null : IMediaSample :=
  mkSample (S_OK, None) 0 (S_OK, 1000, 2000) (S_OK, 1000, 2000).

(** A four-byte sample with start and end time. *)
Definition sample_good : IMediaSample :=
  mkSample (S_OK, Some four_bytes) 4 (S_OK, 10000, 30000) (S_OK, 10000, 30000).

(** A sample with a buffer, no bytes in it, and no media time. *)
Definition sample_zero_length_no_media_time : IMediaSample :=
  mkSample (S_OK, Some four_bytes) 0 (S_OK, 10000, 30000)
    (VFW_E_MEDIA_TIME_NOT_SET, 0, 0).

(** A four-byte sample on which the source set no time stamps. *)
Definition sample_no_time : IMediaSample :=
  mkSample (S_OK, Some four_bytes) 4 (VFW_E_SAMPLE_TIME_NOT_SET, 0, 0)
    (VFW_E_MEDIA_TIME_NOT_SET, 0, 0).

(** A sample with a buffer, no bytes in it, and start and end time. *)
Definition sample_zero_length : IMediaSample :=
  mkSample (S_OK, Some four_bytes) 0 (S_OK, 10000, 30000) (S_OK, 10000, 30000).

(** A sample whose [GetPointer] answers [S_FALSE] and a null pointer. *)
Definition sample_null_s_false : IMediaSample :=
  mkSample (S_FALSE, None) 4 (S_OK, 10000, 30000) (S_OK, 10000, 30000).

(** A four-byte sample with a start time and no stop time. *)
Definition sample_no_stop_time : IMediaSample :=
  mkSample (S_OK, Some four_bytes) 4 (VFW_S_NO_STOP_TIME, 10000, 0)
    (S_OK, 10000, 30000).

Definition audio_filter_stopped : Audio.AudioSinkFilter :=
  Audio.mkFilter State_Stopped
    (Audio.mkPin (mkAudioConfig 1 2 44100 176400 4 16 0 0) AudioConfig_default)
    audio_buffer_empty.

Definition video_filter_stopped : Video.VideoSinkFilter :=
  Video.mkFilter State_Stopped
    (Video.mkPin (mkVideoConfig 640 480) VideoConfig_default)
    (mkVideoFrame 0 0 0 []).

(** A video pin asked for 320x240, bottom-up and top-down. *)
Definition video_pin_320x240 : Video.VideoSinkPin :=
  Video.mkPin VideoConfig_default (mkVideoConfig 320 240).

Definition video_pin_320x240_top_down : Video.VideoSinkPin :=
  Video.mkPin VideoConfig_default (mkVideoConfig 320 (-240)).

(** An instance of [DIBSIZE] for concrete inputs: the byte size of the
    image with each scan line rounded up to 32 bits, in 32-bit unsigned
    arithmetic. *)
Definition DIBSIZE_model (h : VIH.BITMAPINFOHEADER) : Z :=
  let bits := (VIH.biWidth h mod 2 ^ 32 * (VIH.biBitCount h mod 2 ^ 32)) mod 2 ^ 32 in
  let width_bytes := Z.land ((bits + 31) mod 2 ^ 32) (2 ^ 32 - 32) / 8 in
  (width_bytes * Z.abs (VIH.biHeight h)) mod 2 ^ 32.

Definition no_other_casts : BITMAPINFOHEADER * AudioMediaType.t :=
  (mkBMI 0 0 0, AudioMediaType.mk 0 0 0 0 0 0 0 0).

(** The negotiation failure of the error taxonomy: the two statuses with
    which [CheckMediaType] refuses a proposal, both failure codes. *)
Definition FormatRejected (hr : HRESULT) : Prop :=
  hr = VFW_E_TYPE_NOT_ACCEPTED \/ hr = E_INVALIDARG.

(** The single sample slot is overwritten by every [Init]: neither the
    status nor, on success, the resulting slot depends on what the slot held
    before. *)
Definition audio_slot_overwritten
    (Init : AudioBuffer -> AudioConfig -> Z -> Z -> option (list byte) -> Z
            -> Z * AudioBuffer) : Prop :=
  forall b b' config timestamp duration ptr_data length,
    fst (Init b config timestamp duration ptr_data length) =
    fst (Init b' config timestamp duration ptr_data length) /\
    (fst (Init b config timestamp duration ptr_data length) = 0 ->
     snd (Init b config timestamp duration ptr_data length) =
     snd (Init b' config timestamp duration ptr_data length)).

Definition video_slot_overwritten
    (InitI420 : VideoFrame -> Z -> Z -> Z -> option (list byte) -> Z
                -> Z * VideoFrame) : Prop :=
  forall fr fr' width height timestamp ptr_data length,
    fst (InitI420 fr width height timestamp ptr_data length) =
    fst (InitI420 fr' width height timestamp ptr_data length) /\
    (fst (InitI420 fr width height timestamp ptr_data length) = 0 ->
     snd (InitI420 fr width height timestamp ptr_data length) =
     snd (InitI420 fr' width height timestamp ptr_data length)).

(** Two filters that agree on everything but the content of the slot. *)
Definition audio_same_but_slot (f f' : Audio.AudioSinkFilter) : Prop :=
  Audio.m_State f = Audio.m_State f' /\ Audio.sink_pin_ f = Audio.sink_pin_ f'.

Definition video_same_but_slot (f f' : Video.VideoSinkFilter) : Prop :=
  Video.m_State f = Video.m_State f' /\ Video.sink_pin_ f = Video.sink_pin_ f'.

(* ========================================================================= *)
(** * Properties *)

(* ------------------------------------------------------------------------- *)
(** ** Basic facts *)

Lemma GUID_eqb_eq (a b : GUID) : GUID_eqb a b = true <-> a = b.
Proof.
  unfold GUID_eqb. destruct a as [a1 a2 a3 a4], b as [b1 b2 b3 b4]; simpl.
  rewrite !andb_true_iff, !Z.eqb_eq. split.
  - intros [[[-> ->] ->] ->]. reflexivity.
  - intros E. inversion E. auto.
Qed.

Lemma GUID_eqb_neq (a b : GUID) : GUID_eqb a b = false <-> a <> b.
Proof.
  rewrite <- GUID_eqb_eq. destruct (GUID_eqb a b); split; congruence.
Qed.

Lemma GUID_eqb_refl (a : GUID) : GUID_eqb a a = true.
Proof. apply GUID_eqb_eq. reflexivity. Qed.

Lemma FormatRejected_FAILED (hr : HRESULT) : FormatRejected hr -> FAILED hr = true.
Proof. intros [-> | ->]; reflexivity. Qed.

Lemma FormatRejected_not_S_OK (hr : HRESULT) : FormatRejected hr -> hr <> S_OK.
Proof. intros [-> | ->]; discriminate. Qed.

Lemma subtype_ok_spec (g : GUID) :
  Audio.subtype_ok g = true <->
  g = MEDIASUBTYPE_IEEE_FLOAT \/ g = MEDIASUBTYPE_PCM.
Proof.
  unfold Audio.subtype_ok. simpl.
  rewrite !orb_true_iff, !GUID_eqb_eq. intuition congruence.
Qed.

Lemma format_tag_supported_spec (tag : Z) :
  Audio.format_tag_supported tag = true <->
  tag = WAVE_FORMAT_PCM \/ tag = WAVE_FORMAT_IEEE_FLOAT \/
  tag = WAVE_FORMAT_EXTENSIBLE.
Proof.
  unfold Audio.format_tag_supported.
  rewrite !orb_true_iff, !Z.eqb_eq. tauto.
Qed.

Lemma audio_filter_eta (f : Audio.AudioSinkFilter) :
  Audio.mkFilter (Audio.m_State f) (Audio.sink_pin_ f) (Audio.sample_buffer_ f) = f.
Proof. destruct f; reflexivity. Qed.

Lemma video_filter_eta (f : Video.VideoSinkFilter) :
  Video.mkFilter (Video.m_State f) (Video.sink_pin_ f) (Video.frame_ f) = f.
Proof. destruct f; reflexivity. Qed.

(* ------------------------------------------------------------------------- *)
(** ** Negotiation *)

Section Negotiation.

Variable AudioMediaType_Init : CMediaType -> Z * AudioMediaType.t.

(** Every exit of the audio negotiation is either the accepting one or a
    refusal that hands the pin back untouched. *)
Lemma audio_CheckMediaType_cases (pin : Audio.AudioSinkPin) (m : CMediaType) :
  result (Audio.AudioSinkPin_CheckMediaType AudioMediaType_Init pin m) = S_OK \/
  (FormatRejected (result (Audio.AudioSinkPin_CheckMediaType AudioMediaType_Init pin m)) /\ post (Audio.AudioSinkPin_CheckMediaType AudioMediaType_Init pin m) = pin).
Proof.
  unfold Audio.AudioSinkPin_CheckMediaType, FormatRejected.
  destruct (MajorType m) as [type_guid|]; [|right; split; auto].
  destruct (GUID_eqb type_guid MEDIATYPE_Audio); simpl; [|right; split; auto].
  destruct (bTemporalCompression m); [right; split; auto|].
  destruct (Subtype m) as [subtype_guid|]; [|right; split; auto].
  destruct (FormatType m) as [format_guid|]; [|right; split; auto].
  destruct (Audio.subtype_ok subtype_guid); simpl; [|right; split; auto].
  destruct (AudioMediaType_Init m) as [status format].
  destruct (status =? 0); simpl; [|right; split; auto].
  destruct (Audio.format_tag_supported (AudioMediaType.format_tag format));
    simpl; [left; reflexivity | right; split; auto].
Qed.

Lemma audio_CheckMediaType_accept_inv (pin : Audio.AudioSinkPin) (m : CMediaType) :
  result (Audio.AudioSinkPin_CheckMediaType AudioMediaType_Init pin m) = S_OK ->
  exists subtype_guid format,
    MajorType m = Some MEDIATYPE_Audio /\
    bTemporalCompression m = false /\
    Subtype m = Some subtype_guid /\
    Audio.subtype_ok subtype_guid = true /\
    FormatType m <> None /\
    AudioMediaType_Init m = (0, format) /\
    Audio.format_tag_supported (AudioMediaType.format_tag format) = true /\
    post (Audio.AudioSinkPin_CheckMediaType AudioMediaType_Init pin m) =
      Audio.mkPin (Audio.store_format (Audio.actual_config_ pin) format)
                  (Audio.requested_config_ pin).
Proof.
  unfold Audio.AudioSinkPin_CheckMediaType.
  destruct (MajorType m) as [type_guid|]; [|discriminate].
  destruct (GUID_eqb type_guid MEDIATYPE_Audio) eqn:Et; simpl; [|discriminate].
  apply GUID_eqb_eq in Et; subst type_guid.
  destruct (bTemporalCompression m); [discriminate|].
  destruct (Subtype m) as [subtype_guid|]; [|discriminate].
  destruct (FormatType m) as [format_guid|]; [|discriminate].
  destruct (Audio.subtype_ok subtype_guid) eqn:Es; simpl; [|discriminate].
  destruct (AudioMediaType_Init m) as [status format].
  destruct (status =? 0) eqn:E0; simpl; [|discriminate].
  apply Z.eqb_eq in E0; subst status.
  destruct (Audio.format_tag_supported (AudioMediaType.format_tag format)) eqn:Ef;
    simpl; [|discriminate].
  intros _. exists subtype_guid, format. repeat split; auto. discriminate.
Qed.

End Negotiation.

Lemma video_CheckMediaType_cases (pin : Video.VideoSinkPin) (m : CMediaType) :
  result (Video.VideoSinkPin_CheckMediaType pin m) = S_OK \/
  (FormatRejected (result (Video.VideoSinkPin_CheckMediaType pin m)) /\
   post (Video.VideoSinkPin_CheckMediaType pin m) = pin).
Proof.
  assert (Hinfo : forall g h,
    result (Video.check_video_info pin g h) = S_OK \/
    (FormatRejected (result (Video.check_video_info pin g h)) /\
     post (Video.check_video_info pin g h) = pin)).
  { intros g [bmi|]; unfold Video.check_video_info, FormatRejected;
      [|right; split; auto].
    destruct (negb (GUID_eqb g MEDIASUBTYPE_I420) ||
              negb (biCompression bmi =? MAKEFOURCC 73 52 50 48));
      simpl; [right; split; auto | left; reflexivity]. }
  unfold Video.VideoSinkPin_CheckMediaType.
  destruct (MajorType m) as [type_guid|];
    [|right; split; [left|]; reflexivity].
  destruct (GUID_eqb type_guid MEDIATYPE_Video); simpl;
    [|right; split; [left|]; reflexivity].
  destruct (Subtype m) as [subtype_guid|];
    [|right; split; [right|]; reflexivity].
  destruct (FormatType m) as [format_guid|];
    [|right; split; [right|]; reflexivity].
  destruct (GUID_eqb format_guid FORMAT_VideoInfo); [apply Hinfo|].
  destruct (GUID_eqb format_guid FORMAT_VideoInfo2); [apply Hinfo|].
  left; reflexivity.
Qed.

(** C1. A proposal whose sub-kind is neither IEEE-float nor PCM is refused by
    the audio negotiation, and every proposal on which negotiation fails,
    audio or video, is answered with a rejection status
    ([VFW_E_TYPE_NOT_ACCEPTED] or [E_INVALIDARG]) while the pin, and with it
    the Actual Configuration, is exactly what it was before the call. *)
Theorem CheckMediaType_rejection_keeps_actual_config :
  forall (AudioMediaType_Init : CMediaType -> Z * AudioMediaType.t)
         (apin : Audio.AudioSinkPin) (vpin : Video.VideoSinkPin)
         (m : CMediaType),
    let oa := Audio.AudioSinkPin_CheckMediaType AudioMediaType_Init apin m in
    let ov := Video.VideoSinkPin_CheckMediaType vpin m in
    (Subtype m <> Some MEDIASUBTYPE_IEEE_FLOAT ->
     Subtype m <> Some MEDIASUBTYPE_PCM ->
     FormatRejected (result oa) /\
     Audio.actual_config_ (post oa) = Audio.actual_config_ apin) /\
    (result oa <> S_OK ->
     FormatRejected (result oa) /\ post oa = apin) /\
    (result ov <> S_OK ->
     FormatRejected (result ov) /\ post ov = vpin).
Proof.
  intros Init apin vpin m oa ov. repeat split.
  - destruct (audio_CheckMediaType_cases Init apin m) as [Hok | [Hrej _]];
      [|exact Hrej].
    destruct (audio_CheckMediaType_accept_inv Init apin m Hok)
      as (g & fmt & _ & _ & Hs & Hin & _).
    apply subtype_ok_spec in Hin. destruct Hin; subst g; contradiction.
  - destruct (audio_CheckMediaType_cases Init apin m) as [Hok | [_ Hpost]].
    + destruct (audio_CheckMediaType_accept_inv Init apin m Hok)
        as (g & fmt & _ & _ & Hs & Hin & _).
      apply subtype_ok_spec in Hin. destruct Hin; subst g; contradiction.
    + subst oa. rewrite Hpost. reflexivity.
  - destruct (audio_CheckMediaType_cases Init apin m) as [Hok | [Hrej _]];
      [contradiction | exact Hrej].
  - destruct (audio_CheckMediaType_cases Init apin m) as [Hok | [_ Hpost]];
      [contradiction | exact Hpost].
  - destruct (video_CheckMediaType_cases vpin m) as [Hok | [Hrej _]];
      [contradiction | exact Hrej].
  - destruct (video_CheckMediaType_cases vpin m) as [Hok | [_ Hpost]];
      [contradiction | exact Hpost].
Qed.

Lemma CheckMediaType_rejection_keeps_actual_config_witness :
  let oa := Audio.AudioSinkPin_CheckMediaType AudioMediaType_Init_model
              audio_pin_empty mt_audio_rgb24 in
  let ov := Video.VideoSinkPin_CheckMediaType video_pin_empty mt_audio_rgb24 in
  (FormatRejected (result oa) /\
   Audio.actual_config_ (post oa) = Audio.actual_config_ audio_pin_empty) /\
  (FormatRejected (result oa) /\ post oa = audio_pin_empty) /\
  (FormatRejected (result ov) /\ post ov = video_pin_empty).
Proof.
  intros oa ov.
  pose proof (CheckMediaType_rejection_keeps_actual_config
                AudioMediaType_Init_model audio_pin_empty video_pin_empty
                mt_audio_rgb24) as (H1 & H2 & H3).
  split; [|split].
  - apply H1; intro E; vm_compute in E; discriminate E.
  - apply H2; intro E; vm_compute in E; discriminate E.
  - apply H3; intro E; vm_compute in E; discriminate E.
Defined.

(** What an accepted video proposal looks like: the major kind is video, and
    under either supported layout-kind the sub-kind is I420 and the
    compression tag of the header is 'I420'. *)
Lemma video_CheckMediaType_accept_inv (pin : Video.VideoSinkPin) (m : CMediaType) :
  result (Video.VideoSinkPin_CheckMediaType pin m) = S_OK ->
  exists subtype_guid format_guid,
    MajorType m = Some MEDIATYPE_Video /\
    Subtype m = Some subtype_guid /\
    FormatType m = Some format_guid /\
    (format_guid = FORMAT_VideoInfo ->
       subtype_guid = MEDIASUBTYPE_I420 /\
       option_map (fun fb => biCompression (as_VIDEOINFOHEADER fb)) (Format m)
         = Some FOURCC_I420) /\
    (format_guid <> FORMAT_VideoInfo -> format_guid = FORMAT_VideoInfo2 ->
       subtype_guid = MEDIASUBTYPE_I420 /\
       option_map (fun fb => biCompression (as_VIDEOINFOHEADER2 fb)) (Format m)
         = Some FOURCC_I420).
Proof.
  assert (Hinfo : forall g h,
    result (Video.check_video_info pin g h) = S_OK ->
    g = MEDIASUBTYPE_I420 /\ option_map biCompression h = Some FOURCC_I420).
  { intros g [bmi|]; unfold Video.check_video_info; [|discriminate].
    destruct (GUID_eqb g MEDIASUBTYPE_I420) eqn:Eg; simpl; [|discriminate].
    destruct (biCompression bmi =? MAKEFOURCC 73 52 50 48) eqn:Ec; simpl;
      [|discriminate].
    intros _. apply GUID_eqb_eq in Eg. apply Z.eqb_eq in Ec.
    split; [exact Eg | f_equal; exact Ec]. }
  unfold Video.VideoSinkPin_CheckMediaType.
  destruct (MajorType m) as [type_guid|]; [|discriminate].
  destruct (GUID_eqb type_guid MEDIATYPE_Video) eqn:Et; simpl; [|discriminate].
  apply GUID_eqb_eq in Et; subst type_guid.
  destruct (Subtype m) as [subtype_guid|]; [|discriminate].
  destruct (FormatType m) as [format_guid|]; [|discriminate].
  intros H. exists subtype_guid, format_guid. repeat split; trivial.
  - subst format_guid. rewrite GUID_eqb_refl in H.
    apply Hinfo in H. apply H.
  - subst format_guid. rewrite GUID_eqb_refl in H.
    apply Hinfo in H. destruct H as [_ H]. destruct (Format m); exact H.
  - apply Hinfo with (h := option_map as_VIDEOINFOHEADER2 (Format m)).
    apply GUID_eqb_neq in H0. rewrite H0 in H. subst format_guid.
    rewrite GUID_eqb_refl in H. exact H.
  - apply GUID_eqb_neq in H0. rewrite H0 in H. subst format_guid.
    rewrite GUID_eqb_refl in H. apply Hinfo in H. destruct H as [_ H].
    destruct (Format m); exact H.
Qed.

(** A video proposal with a layout-kind other than the two video-info
    representations falls through the [if]/[else if] chain and is accepted,
    whatever its sub-kind, with the pin untouched. *)
Lemma video_CheckMediaType_other_layout (pin : Video.VideoSinkPin)
    (m : CMediaType) (subtype_guid format_guid : GUID) :
  MajorType m = Some MEDIATYPE_Video ->
  Subtype m = Some subtype_guid ->
  FormatType m = Some format_guid ->
  format_guid <> FORMAT_VideoInfo ->
  format_guid <> FORMAT_VideoInfo2 ->
  result (Video.VideoSinkPin_CheckMediaType pin m) = S_OK /\
  post (Video.VideoSinkPin_CheckMediaType pin m) = pin.
Proof.
  intros Hm Hs Hf H1 H2. unfold Video.VideoSinkPin_CheckMediaType.
  rewrite Hm, Hs, Hf, GUID_eqb_refl. simpl.
  apply GUID_eqb_neq in H1, H2. rewrite H1, H2. split; reflexivity.
Qed.

(** C2. The code at a proposal the claim says is rejected: major kind video,
    sub-kind RGB24, layout-kind [FORMAT_None] (neither [FORMAT_VideoInfo] nor
    [FORMAT_VideoInfo2]) and no format block.  [CheckMediaType] answers
    [S_OK] and leaves the pin as it was. *)
Theorem VideoSinkPin_CheckMediaType_accepts_unsupported_layout :
  forall pin : Video.VideoSinkPin,
    FormatType mt_video_rgb24_no_format = Some FORMAT_None /\
    FORMAT_None <> FORMAT_VideoInfo /\
    FORMAT_None <> FORMAT_VideoInfo2 /\
    Subtype mt_video_rgb24_no_format <> Some MEDIASUBTYPE_I420 /\
    Video.VideoSinkPin_CheckMediaType pin mt_video_rgb24_no_format =
      mkOutcome S_OK pin [LOG INFO " CheckMediaType actual settings"].
Proof.
  intros pin. repeat split; try discriminate.
Qed.

(** C5 (amended).  For every accepted audio proposal: when the parsed format
    tag is extensible, valid-bits-per-sample and the channel mask of the
    resulting Actual Configuration are those of the parsed record; when the
    tag is not extensible the two fields are not written and keep the values
    the Actual Configuration had before the call, hence zero when it was
    empty (as it is after [set_config]). *)
Theorem CheckMediaType_extensible_fields :
  forall (AudioMediaType_Init : CMediaType -> Z * AudioMediaType.t)
         (pin : Audio.AudioSinkPin) (m : CMediaType),
    let o := Audio.AudioSinkPin_CheckMediaType AudioMediaType_Init pin m in
    let format := snd (AudioMediaType_Init m) in
    let cfg := Audio.actual_config_ (post o) in
    result o = S_OK ->
    (AudioMediaType.format_tag format = WAVE_FORMAT_EXTENSIBLE ->
       valid_bits_per_sample cfg = AudioMediaType.valid_bits_per_sample format /\
       channel_mask cfg = AudioMediaType.channel_mask format) /\
    (AudioMediaType.format_tag format <> WAVE_FORMAT_EXTENSIBLE ->
       valid_bits_per_sample cfg = valid_bits_per_sample (Audio.actual_config_ pin) /\
       channel_mask cfg = channel_mask (Audio.actual_config_ pin)) /\
    (AudioMediaType.format_tag format <> WAVE_FORMAT_EXTENSIBLE ->
     Audio.actual_config_ pin = AudioConfig_default ->
       valid_bits_per_sample cfg = 0 /\ channel_mask cfg = 0).
Proof.
  intros Init pin m o format cfg Hok.
  destruct (audio_CheckMediaType_accept_inv Init pin m Hok)
    as (g & fmt & _ & _ & _ & _ & _ & Hinit & _ & Hpost).
  subst cfg format o. rewrite Hpost, Hinit. simpl.
  split; [|split].
  - intros Htag. rewrite Htag, Z.eqb_refl. split; reflexivity.
  - intros Htag. apply Z.eqb_neq in Htag. rewrite Htag. split; reflexivity.
  - intros Htag Hdef. apply Z.eqb_neq in Htag. rewrite Htag, Hdef.
    split; reflexivity.
Qed.

Lemma CheckMediaType_extensible_fields_witness :
  let o1 := Audio.AudioSinkPin_CheckMediaType AudioMediaType_Init_model
              audio_pin_empty mt_extensible in
  let o2 := Audio.AudioSinkPin_CheckMediaType AudioMediaType_Init_model
              audio_pin_empty mt_pcm in
  (result o1 = S_OK /\
   valid_bits_per_sample (Audio.actual_config_ (post o1)) = 24 /\
   channel_mask (Audio.actual_config_ (post o1)) = 3) /\
  (result o2 = S_OK /\
   valid_bits_per_sample (Audio.actual_config_ (post o2)) = 0 /\
   channel_mask (Audio.actual_config_ (post o2)) = 0).
Proof.
  intros o1 o2. split.
  - split; [reflexivity|].
    apply (CheckMediaType_extensible_fields AudioMediaType_Init_model
             audio_pin_empty mt_extensible); reflexivity.
  - split; [reflexivity|].
    apply (CheckMediaType_extensible_fields AudioMediaType_Init_model
             audio_pin_empty mt_pcm);
      [reflexivity | discriminate | reflexivity].
Defined.

(** C5 as stated fails: after an extensible proposal was accepted, an accepted
    PCM proposal leaves valid-bits-per-sample and the channel mask at the
    values of the extensible one, not at zero. *)
Lemma CheckMediaType_pcm_after_extensible_keeps_fields :
  let o1 := Audio.AudioSinkPin_CheckMediaType AudioMediaType_Init_model
              audio_pin_empty mt_extensible in
  let o2 := Audio.AudioSinkPin_CheckMediaType AudioMediaType_Init_model
              (post o1) mt_pcm in
  result o1 = S_OK /\ result o2 = S_OK /\
  format_tag (Audio.actual_config_ (post o2)) = WAVE_FORMAT_PCM /\
  valid_bits_per_sample (Audio.actual_config_ (post o2)) = 24 /\
  channel_mask (Audio.actual_config_ (post o2)) = 3 /\
  valid_bits_per_sample (Audio.actual_config_ (post o2))
    <> valid_bits_per_sample AudioConfig_default /\
  channel_mask (Audio.actual_config_ (post o2))
    <> channel_mask AudioConfig_default.
Proof.
  repeat split; discriminate.
Qed.

(* ------------------------------------------------------------------------- *)
(** ** Enumeration of the preferred audio formats *)

(** Indices 0 and 1 answer the two supported sub-kinds; an index above the
    count, and only such an index, answers end-of-list. *)
Lemma AudioSinkPin_GetMediaType_in_table (past : GUID) (m : CMediaType) :
  Audio.AudioSinkPin_GetMediaType past 0 (Some m) =
    (S_OK, Some (mkMediaType (Some MEDIATYPE_Audio) (Some MEDIASUBTYPE_IEEE_FLOAT)
                   (Some FORMAT_WaveFormatEx) (bTemporalCompression m) (Format m))) /\
  Audio.AudioSinkPin_GetMediaType past 1 (Some m) =
    (S_OK, Some (mkMediaType (Some MEDIATYPE_Audio) (Some MEDIASUBTYPE_PCM)
                   (Some FORMAT_WaveFormatEx) (bTemporalCompression m) (Format m))).
Proof. split; reflexivity. Qed.

Lemma AudioSinkPin_GetMediaType_end_of_list (past : GUID) (i : Z) (m : CMediaType) :
  fst (Audio.AudioSinkPin_GetMediaType past i (Some m)) = VFW_S_NO_MORE_ITEMS <->
  Audio.kNumInputSubTypes < i.
Proof.
  unfold Audio.AudioSinkPin_GetMediaType, Audio.kNumInputSubTypes.
  destruct (i <? 0) eqn:E0; simpl.
  - apply Z.ltb_lt in E0. split; [discriminate | lia].
  - destruct (i >? 2) eqn:E2; simpl.
    + apply Z.gtb_lt in E2. split; [lia | reflexivity].
    + split; [discriminate|]. intros H. apply Z.gtb_lt in H. congruence.
Qed.

(** C6. The code at index 2, the count of supported sub-kinds: the bound test
    [type_index > kNumInputSubTypes] lets it through, the sub-kind is read
    from beyond the two-element table, and the answer is [S_OK] with a
    format, not end-of-list. *)
Theorem AudioSinkPin_GetMediaType_at_count :
  forall (past_the_table : GUID) (m : CMediaType),
    Audio.kNumInputSubTypes = 2 /\
    nth_error Audio.kInputSubTypes 2 = None /\
    Audio.AudioSinkPin_GetMediaType past_the_table 2 (Some m) =
      (S_OK, Some (mkMediaType (Some MEDIATYPE_Audio) (Some past_the_table)
                     (Some FORMAT_WaveFormatEx) (bTemporalCompression m)
                     (Format m))) /\
    fst (Audio.AudioSinkPin_GetMediaType past_the_table 2 (Some m))
      <> VFW_S_NO_MORE_ITEMS.
Proof.
  intros past m. repeat split. discriminate.
Qed.

(* ------------------------------------------------------------------------- *)
(** ** Configuration *)

(** C8. Outside the stopped run state (paused or running) [set_config] fails
    with [VFW_E_NOT_STOPPED] and the filter, with its Requested and Actual
    Configuration, is unchanged; in the stopped state it succeeds, the
    Requested Configuration becomes the supplied value and the Actual
    Configuration becomes the empty one, whatever it was.  Audio and video
    alike. *)
Theorem set_config_gated_by_run_state :
  forall (af : Audio.AudioSinkFilter) (aconfig : AudioConfig)
         (vf : Video.VideoSinkFilter) (vconfig : VideoConfig),
    let oa := Audio.AudioSinkFilter_set_config af aconfig in
    let ov := Video.VideoSinkFilter_set_config vf vconfig in
    (Audio.m_State af <> State_Stopped ->
       result oa = VFW_E_NOT_STOPPED /\ FAILED (result oa) = true /\ post oa = af) /\
    (Audio.m_State af = State_Stopped ->
       result oa = S_OK /\
       Audio.requested_config_ (Audio.sink_pin_ (post oa)) = aconfig /\
       Audio.actual_config_ (Audio.sink_pin_ (post oa)) = AudioConfig_default /\
       Audio.m_State (post oa) = State_Stopped) /\
    (Video.m_State vf <> State_Stopped ->
       result ov = VFW_E_NOT_STOPPED /\ FAILED (result ov) = true /\ post ov = vf) /\
    (Video.m_State vf = State_Stopped ->
       result ov = S_OK /\
       Video.requested_config_ (Video.sink_pin_ (post ov)) = vconfig /\
       Video.actual_config_ (Video.sink_pin_ (post ov)) = VideoConfig_default /\
       Video.m_State (post ov) = State_Stopped).
Proof.
  intros af aconfig vf vconfig oa ov. subst oa ov.
  unfold Audio.AudioSinkFilter_set_config, Video.VideoSinkFilter_set_config.
  destruct af as [ast apin abuf], vf as [vst vpin vfr]; simpl.
  repeat split;
    match goal with
    | H : ?st <> State_Stopped |- _ => destruct st; try contradiction; reflexivity
    | H : ?st = State_Stopped |- _ => rewrite H; reflexivity
    end.
Qed.

Lemma set_config_gated_by_run_state_witness :
  let running := audio_filter_running in
  let stopped := Audio.mkFilter State_Stopped
                   (Audio.mkPin (mkAudioConfig 1 2 44100 176400 4 16 0 0)
                                AudioConfig_default)
                   audio_buffer_empty in
  let wanted := mkAudioConfig 3 2 48000 384000 8 32 0 0 in
  let vpaused := Video.mkFilter State_Paused video_pin_empty (mkVideoFrame 0 0 0 []) in
  let vstopped := Video.mkFilter State_Stopped
                    (Video.mkPin (mkVideoConfig 640 480) VideoConfig_default)
                    (mkVideoFrame 0 0 0 []) in
  let vwanted := mkVideoConfig 1280 720 in
  (result (Audio.AudioSinkFilter_set_config running wanted) = VFW_E_NOT_STOPPED /\
   FAILED (result (Audio.AudioSinkFilter_set_config running wanted)) = true /\
   post (Audio.AudioSinkFilter_set_config running wanted) = running) /\
  (result (Audio.AudioSinkFilter_set_config stopped wanted) = S_OK /\
   Audio.requested_config_
     (Audio.sink_pin_ (post (Audio.AudioSinkFilter_set_config stopped wanted)))
     = wanted /\
   Audio.actual_config_
     (Audio.sink_pin_ (post (Audio.AudioSinkFilter_set_config stopped wanted)))
     = AudioConfig_default /\
   Audio.m_State (post (Audio.AudioSinkFilter_set_config stopped wanted))
     = State_Stopped) /\
  (result (Video.VideoSinkFilter_set_config vpaused vwanted) = VFW_E_NOT_STOPPED /\
   FAILED (result (Video.VideoSinkFilter_set_config vpaused vwanted)) = true /\
   post (Video.VideoSinkFilter_set_config vpaused vwanted) = vpaused) /\
  (result (Video.VideoSinkFilter_set_config vstopped vwanted) = S_OK /\
   Video.requested_config_
     (Video.sink_pin_ (post (Video.VideoSinkFilter_set_config vstopped vwanted)))
     = vwanted /\
   Video.actual_config_
     (Video.sink_pin_ (post (Video.VideoSinkFilter_set_config vstopped vwanted)))
     = VideoConfig_default /\
   Video.m_State (post (Video.VideoSinkFilter_set_config vstopped vwanted))
     = State_Stopped).
Proof.
  intros running stopped wanted vpaused vstopped vwanted.
  split; [|split; [|split]].
  - apply (set_config_gated_by_run_state running wanted vpaused vwanted).
    discriminate.
  - apply (set_config_gated_by_run_state stopped wanted vstopped vwanted).
    reflexivity.
  - apply (set_config_gated_by_run_state running wanted vpaused vwanted).
    discriminate.
  - apply (set_config_gated_by_run_state stopped wanted vstopped vwanted).
    reflexivity.
Defined.

(** C10. With a null output pointer the configuration getter answers
    [E_POINTER]; with a non-null one it answers [S_OK] and the pointee holds
    the Actual Configuration.  In both cases the filter, with its Requested
    and Actual Configuration, is unchanged.  Audio and video alike. *)
Theorem config_getter :
  forall (af : Audio.AudioSinkFilter) (vf : Video.VideoSinkFilter)
         (aold : AudioConfig) (vold : VideoConfig),
    (result (fst (Audio.AudioSinkFilter_config af None)) = E_POINTER /\
     FAILED E_POINTER = true /\
     post (fst (Audio.AudioSinkFilter_config af None)) = af /\
     snd (Audio.AudioSinkFilter_config af None) = None) /\
    (result (fst (Audio.AudioSinkFilter_config af (Some aold))) = S_OK /\
     post (fst (Audio.AudioSinkFilter_config af (Some aold))) = af /\
     snd (Audio.AudioSinkFilter_config af (Some aold))
       = Some (Audio.actual_config_ (Audio.sink_pin_ af))) /\
    (result (fst (Video.VideoSinkFilter_config vf None)) = E_POINTER /\
     post (fst (Video.VideoSinkFilter_config vf None)) = vf /\
     snd (Video.VideoSinkFilter_config vf None) = None) /\
    (result (fst (Video.VideoSinkFilter_config vf (Some vold))) = S_OK /\
     post (fst (Video.VideoSinkFilter_config vf (Some vold))) = vf /\
     snd (Video.VideoSinkFilter_config vf (Some vold))
       = Some (Video.actual_config_ (Video.sink_pin_ vf))).
Proof.
  intros af vf aold vold.
  unfold Audio.AudioSinkFilter_config, Video.VideoSinkFilter_config; simpl.
  rewrite audio_filter_eta, video_filter_eta.
  repeat split.
Qed.

(* ------------------------------------------------------------------------- *)
(** ** Time conversion *)

(** C9. The tick-to-millisecond conversion is monotonic: a later start time
    never converts to an earlier millisecond value. *)
Theorem media_time_to_milliseconds_monotonic :
  forall t1 t2 : Z,
    t1 < t2 ->
    media_time_to_milliseconds t1 <= media_time_to_milliseconds t2.
Proof.
  intros t1 t2 Hlt. unfold media_time_to_milliseconds.
  apply Z.quot_le_mono.
  - unfold kMediaTimeTicksPerMillisecond. lia.
  - lia.
Qed.

Lemma media_time_to_milliseconds_monotonic_witness :
  (-15000) < 25000 /\
  media_time_to_milliseconds (-15000) <= media_time_to_milliseconds 25000.
Proof.
  split; [lia | apply (media_time_to_milliseconds_monotonic (-15000) 25000); lia].
Defined.

(* ------------------------------------------------------------------------- *)
(** ** Sample ingest *)

Lemma SUCCEEDED_FAILED (hr : HRESULT) : SUCCEEDED hr = negb (FAILED hr).
Proof.
  unfold SUCCEEDED, FAILED.
  destruct (0 <=? hr) eqn:E1, (hr <? 0) eqn:E2; try reflexivity; lia.
Qed.

Lemma callback_count_app (l1 l2 : list Event) :
  callback_count (l1 ++ l2) = (callback_count l1 + callback_count l2)%nat.
Proof.
  unfold callback_count. rewrite filter_app, length_app. reflexivity.
Qed.

Lemma no_stop_time_warning_callbacks (hr : HRESULT) :
  filter is_callback (Audio.no_stop_time_warning hr) = [].
Proof.
  unfold Audio.no_stop_time_warning.
  destruct (negb (hr =? VFW_S_NO_STOP_TIME)); reflexivity.
Qed.

Section AudioIngest.

Variable CBaseInputPin_Receive : FILTER_STATE -> IMediaSample -> HRESULT.
Variable AudioBuffer_Init :
  AudioBuffer -> AudioConfig -> Z -> Z -> option (list byte) -> Z -> Z * AudioBuffer.
Variable ptr_samples_callback_ : AudioBuffer -> Z.

(** A delivery whose ingest fails never reaches the callback and touches
    nothing but the slot. *)
Lemma audio_ingest_failure (f : Audio.AudioSinkFilter) (s : IMediaSample) :
  let o := Audio.AudioSinkFilter_OnSamplesReceived AudioBuffer_Init
             ptr_samples_callback_ f (Some s) in
  FAILED (result o) = true ->
  callback_count (events o) = 0%nat /\ audio_same_but_slot (post o) f.
Proof.
  unfold Audio.AudioSinkFilter_OnSamplesReceived, audio_same_but_slot.
  destruct (GetPointer s) as [hr1 p].
  destruct (FAILED hr1 || is_null p || (GetActualDataLength s <=? 0));
    [intros _; repeat split|].
  destruct (GetTime s) as [[hr2 start_time] end_time].
  destruct (FAILED hr2); [intros _; repeat split|].
  destruct (AudioBuffer_Init _ _ _ _ _ _) as [status sample_buffer].
  destruct (status =? 0); simpl; [discriminate|].
  intros _. rewrite callback_count_app. unfold callback_count.
  rewrite no_stop_time_warning_callbacks. repeat split.
Qed.

Lemma audio_ingest_post (f : Audio.AudioSinkFilter) (s : option IMediaSample) :
  audio_same_but_slot
    (post (Audio.AudioSinkFilter_OnSamplesReceived AudioBuffer_Init
             ptr_samples_callback_ f s)) f.
Proof.
  unfold Audio.AudioSinkFilter_OnSamplesReceived, audio_same_but_slot.
  destruct s as [s|]; [|split; reflexivity].
  destruct (GetPointer s) as [hr1 p].
  destruct (FAILED hr1 || is_null p || (GetActualDataLength s <=? 0));
    [split; reflexivity|].
  destruct (GetTime s) as [[hr2 start_time] end_time].
  destruct (FAILED hr2); [split; reflexivity|].
  destruct (AudioBuffer_Init _ _ _ _ _ _) as [status sample_buffer].
  destruct (status =? 0); simpl; split; reflexivity.
Qed.

Lemma audio_Receive_post (f : Audio.AudioSinkFilter) (s : IMediaSample) :
  audio_same_but_slot
    (post (Audio.AudioSinkPin_Receive CBaseInputPin_Receive AudioBuffer_Init
             ptr_samples_callback_ f s)) f.
Proof.
  unfold Audio.AudioSinkPin_Receive.
  destruct (FAILED (CBaseInputPin_Receive (Audio.m_State f) s)).
  - split; reflexivity.
  - exact (audio_ingest_post f (Some s)).
Qed.

Hypothesis Init_overwrites : audio_slot_overwritten AudioBuffer_Init.

(** What a delivery answers and emits does not depend on the slot's previous
    content, and the filters still agree afterwards. *)
Lemma audio_ingest_same_but_slot (f f' : Audio.AudioSinkFilter)
    (s : option IMediaSample) :
  audio_same_but_slot f f' ->
  let o := Audio.AudioSinkFilter_OnSamplesReceived AudioBuffer_Init
             ptr_samples_callback_ f s in
  let o' := Audio.AudioSinkFilter_OnSamplesReceived AudioBuffer_Init
              ptr_samples_callback_ f' s in
  result o = result o' /\ events o = events o' /\
  audio_same_but_slot (post o) (post o').
Proof.
  destruct f as [st pin b], f' as [st' pin' b'].
  unfold audio_same_but_slot; simpl. intros [<- <-].
  unfold Audio.AudioSinkFilter_OnSamplesReceived; simpl.
  destruct s as [s|]; [|repeat split].
  destruct (GetPointer s) as [hr1 p].
  destruct (FAILED hr1 || is_null p || (GetActualDataLength s <=? 0));
    [repeat split|].
  destruct (GetTime s) as [[hr2 start_time] end_time].
  destruct (FAILED hr2); [repeat split|].
  match goal with
  | |- context [AudioBuffer_Init b ?c ?t ?d ?q ?n] =>
      destruct (Init_overwrites b b' c t d q n) as [Hst Hbuf];
      destruct (AudioBuffer_Init b c t d q n) as [status sb];
      destruct (AudioBuffer_Init b' c t d q n) as [status' sb']
  end.
  simpl in Hst, Hbuf. subst status'.
  destruct (status =? 0) eqn:E0; simpl; [|repeat split].
  apply Z.eqb_eq in E0. rewrite (Hbuf E0). repeat split.
Qed.

Lemma audio_Receive_same_but_slot (f f' : Audio.AudioSinkFilter)
    (s : IMediaSample) :
  audio_same_but_slot f f' ->
  let o := Audio.AudioSinkPin_Receive CBaseInputPin_Receive AudioBuffer_Init
             ptr_samples_callback_ f s in
  let o' := Audio.AudioSinkPin_Receive CBaseInputPin_Receive AudioBuffer_Init
              ptr_samples_callback_ f' s in
  result o = result o' /\ events o = events o' /\
  audio_same_but_slot (post o) (post o').
Proof.
  intros Hsame. pose proof Hsame as [Hst _].
  destruct (audio_ingest_same_but_slot f f' (Some s) Hsame) as (Hr & He & Hp).
  unfold Audio.AudioSinkPin_Receive. rewrite <- Hst.
  destruct (FAILED (CBaseInputPin_Receive (Audio.m_State f) s));
    cbn [result post events].
  - repeat split; apply Hsame.
  - rewrite He, Hr. repeat split; apply Hp.
Qed.

Lemma audio_upstream_push_same_but_slot (samples : list IMediaSample) :
  forall f f' : Audio.AudioSinkFilter,
    audio_same_but_slot f f' ->
    Audio.upstream_push CBaseInputPin_Receive AudioBuffer_Init
      ptr_samples_callback_ f samples =
    Audio.upstream_push CBaseInputPin_Receive AudioBuffer_Init
      ptr_samples_callback_ f' samples.
Proof.
  induction samples as [|s rest IH]; intros f f' Hsame; simpl; [reflexivity|].
  destruct (audio_Receive_same_but_slot f f' s Hsame) as (Hr & He & Hp).
  rewrite Hr, He. f_equal. apply IH, Hp.
Qed.

End AudioIngest.

Section VideoIngest.

Variable CBaseInputPin_Receive : FILTER_STATE -> IMediaSample -> HRESULT.
Variable VideoFrame_InitI420 :
  VideoFrame -> Z -> Z -> Z -> option (list byte) -> Z -> Z * VideoFrame.

Lemma video_ingest_post (f : Video.VideoSinkFilter) (s : option IMediaSample) :
  video_same_but_slot
    (post (Video.VideoSinkFilter_OnFrameReceived VideoFrame_InitI420 f s)) f.
Proof.
  unfold Video.VideoSinkFilter_OnFrameReceived, video_same_but_slot.
  destruct s as [s|]; [|split; reflexivity].
  destruct (GetPointer s) as [hr1 p].
  destruct (FAILED hr1 || is_null p); [split; reflexivity|].
  destruct (GetMediaTime s) as [[hr2 start_time] end_time].
  destruct (FAILED hr2); [split; reflexivity|].
  destruct (VideoFrame_InitI420 _ _ _ _ _ _) as [status frame].
  destruct (status =? 0); simpl; split; reflexivity.
Qed.

(** The video sink has no consumer callback on its ingest path. *)
Lemma video_ingest_no_callback (f : Video.VideoSinkFilter)
    (s : option IMediaSample) :
  callback_count
    (events (Video.VideoSinkFilter_OnFrameReceived VideoFrame_InitI420 f s)) = 0%nat.
Proof.
  unfold Video.VideoSinkFilter_OnFrameReceived.
  destruct s as [s|]; [|reflexivity].
  destruct (GetPointer s) as [hr1 p].
  destruct (FAILED hr1 || is_null p); [reflexivity|].
  destruct (GetMediaTime s) as [[hr2 start_time] end_time].
  destruct (FAILED hr2); [reflexivity|].
  destruct (VideoFrame_InitI420 _ _ _ _ _ _) as [status frame].
  destruct (status =? 0); reflexivity.
Qed.

Lemma video_Receive_post (f : Video.VideoSinkFilter) (s : IMediaSample) :
  video_same_but_slot
    (post (Video.VideoSinkPin_Receive CBaseInputPin_Receive VideoFrame_InitI420
             f s)) f.
Proof.
  unfold Video.VideoSinkPin_Receive.
  destruct (SUCCEEDED (CBaseInputPin_Receive (Video.m_State f) s)).
  - exact (video_ingest_post f (Some s)).
  - split; reflexivity.
Qed.

Hypothesis InitI420_overwrites : video_slot_overwritten VideoFrame_InitI420.

Lemma video_ingest_same_but_slot (f f' : Video.VideoSinkFilter)
    (s : option IMediaSample) :
  video_same_but_slot f f' ->
  let o := Video.VideoSinkFilter_OnFrameReceived VideoFrame_InitI420 f s in
  let o' := Video.VideoSinkFilter_OnFrameReceived VideoFrame_InitI420 f' s in
  result o = result o' /\ events o = events o' /\
  video_same_but_slot (post o) (post o').
Proof.
  destruct f as [st pin fr], f' as [st' pin' fr'].
  unfold video_same_but_slot; simpl. intros [<- <-].
  unfold Video.VideoSinkFilter_OnFrameReceived; simpl.
  destruct s as [s|]; [|repeat split].
  destruct (GetPointer s) as [hr1 p].
  destruct (FAILED hr1 || is_null p); [repeat split|].
  destruct (GetMediaTime s) as [[hr2 start_time] end_time].
  destruct (FAILED hr2); [repeat split|].
  match goal with
  | |- context [VideoFrame_InitI420 fr ?w ?h ?t ?q ?n] =>
      destruct (InitI420_overwrites fr fr' w h t q n) as [Hst _];
      destruct (VideoFrame_InitI420 fr w h t q n) as [status frame];
      destruct (VideoFrame_InitI420 fr' w h t q n) as [status' frame']
  end.
  simpl in Hst. subst status'.
  destruct (status =? 0); simpl; repeat split.
Qed.

Lemma video_Receive_same_but_slot (f f' : Video.VideoSinkFilter)
    (s : IMediaSample) :
  video_same_but_slot f f' ->
  let o := Video.VideoSinkPin_Receive CBaseInputPin_Receive VideoFrame_InitI420
             f s in
  let o' := Video.VideoSinkPin_Receive CBaseInputPin_Receive VideoFrame_InitI420
              f' s in
  result o = result o' /\ events o = events o' /\
  video_same_but_slot (post o) (post o').
Proof.
  intros Hsame. pose proof Hsame as [Hst _].
  unfold Video.VideoSinkPin_Receive. rewrite <- Hst.
  destruct (SUCCEEDED (CBaseInputPin_Receive (Video.m_State f) s)).
  - exact (video_ingest_same_but_slot f f' (Some s) Hsame).
  - repeat split; apply Hsame.
Qed.

Lemma video_upstream_push_same_but_slot (samples : list IMediaSample) :
  forall f f' : Video.VideoSinkFilter,
    video_same_but_slot f f' ->
    Video.upstream_push CBaseInputPin_Receive VideoFrame_InitI420 f samples =
    Video.upstream_push CBaseInputPin_Receive VideoFrame_InitI420 f' samples.
Proof.
  induction samples as [|s rest IH]; intros f f' Hsame; simpl; [reflexivity|].
  destruct (video_Receive_same_but_slot f f' s Hsame) as (Hr & He & Hp).
  rewrite Hr, He. f_equal. apply IH, Hp.
Qed.

End VideoIngest.

Lemma AudioBuffer_Init_model_overwrites :
  audio_slot_overwritten AudioBuffer_Init_model.
Proof.
  intros b b' config ts dur [bytes|] len; unfold AudioBuffer_Init_model;
    [|split; [reflexivity | discriminate]].
  destruct ((0 <? len) && (len <=? Z.of_nat (List.length bytes)));
    split; try reflexivity; discriminate.
Defined.

Lemma VideoFrame_InitI420_model_overwrites :
  video_slot_overwritten VideoFrame_InitI420_model.
Proof.
  intros fr fr' w h ts [bytes|] len; unfold VideoFrame_InitI420_model;
    [|split; [reflexivity | discriminate]].
  destruct ((0 <? len) && (len <=? Z.of_nat (List.length bytes)));
    split; try reflexivity; discriminate.
Defined.

(** C3 (amended).  When the base pin lets a sample through and its ingest
    fails (empty payload, time query, buffer initialisation): the video pin's
    [Receive] returns that error to the upstream caller; the audio pin's
    [Receive] logs it and returns [S_OK].  In both sinks the failed delivery
    invokes no callback and leaves run state, Requested and Actual
    Configuration as they were, and, the slot being overwritten by every
    [Init], each later delivery answers and emits what it would have
    without the failed one. *)
Theorem Receive_after_failed_ingest :
  forall (abase vbase : FILTER_STATE -> IMediaSample -> HRESULT)
         (Init : AudioBuffer -> AudioConfig -> Z -> Z -> option (list byte) -> Z
                 -> Z * AudioBuffer)
         (callback : AudioBuffer -> Z)
         (InitI420 : VideoFrame -> Z -> Z -> Z -> option (list byte) -> Z
                     -> Z * VideoFrame)
         (af : Audio.AudioSinkFilter) (vf : Video.VideoSinkFilter)
         (s : IMediaSample),
    audio_slot_overwritten Init ->
    video_slot_overwritten InitI420 ->
    let ia := Audio.AudioSinkFilter_OnSamplesReceived Init callback af (Some s) in
    let ra := Audio.AudioSinkPin_Receive abase Init callback af s in
    let iv := Video.VideoSinkFilter_OnFrameReceived InitI420 vf (Some s) in
    let rv := Video.VideoSinkPin_Receive vbase InitI420 vf s in
    (FAILED (abase (Audio.m_State af) s) = false ->
     FAILED (result ia) = true ->
       result ra = S_OK /\
       In (LOG ERROR "OnSamplesReceived failed. ") (events ra) /\
       callback_count (events ra) = 0%nat /\
       Audio.m_State (post ra) = Audio.m_State af /\
       Audio.sink_pin_ (post ra) = Audio.sink_pin_ af /\
       forall later : list IMediaSample,
         Audio.upstream_push abase Init callback (post ra) later =
         Audio.upstream_push abase Init callback af later) /\
    (FAILED (vbase (Video.m_State vf) s) = false ->
     FAILED (result iv) = true ->
       result rv = result iv /\
       callback_count (events rv) = 0%nat /\
       Video.m_State (post rv) = Video.m_State vf /\
       Video.sink_pin_ (post rv) = Video.sink_pin_ vf /\
       forall later : list IMediaSample,
         Video.upstream_push vbase InitI420 (post rv) later =
         Video.upstream_push vbase InitI420 vf later).
Proof.
  intros abase vbase Init callback InitI420 af vf s Hov Hovv ia ra iv rv.
  split.
  - intros Hbase Hfail.
    pose proof (audio_Receive_post abase Init callback af s) as Hpost.
    destruct (audio_ingest_failure Init callback af s Hfail) as [Hcb _].
    subst ra ia. unfold Audio.AudioSinkPin_Receive in *.
    rewrite Hbase in *. cbn [result post events] in *.
    rewrite Hfail. repeat split.
    + apply in_or_app. right. left. reflexivity.
    + rewrite callback_count_app, Hcb. reflexivity.
    + apply Hpost.
    + apply Hpost.
    + intros later.
      apply audio_upstream_push_same_but_slot; assumption.
  - intros Hbase Hfail.
    pose proof (video_Receive_post vbase InitI420 vf s) as Hpost.
    subst rv iv. unfold Video.VideoSinkPin_Receive in *.
    rewrite SUCCEEDED_FAILED, Hbase in *. cbn [negb] in *. repeat split.
    + apply video_ingest_no_callback.
    + apply Hpost.
    + apply Hpost.
    + intros later.
      apply video_upstream_push_same_but_slot; assumption.
Qed.

Lemma Receive_after_failed_ingest_witness :
  let ra := Audio.AudioSinkPin_Receive CBaseInputPin_Receive_model
              AudioBuffer_Init_model callback_ok audio_filter_running
              sample_null in
  let rv := Video.VideoSinkPin_Receive CBaseInputPin_Receive_model
              VideoFrame_InitI420_model video_filter_running sample_null in
  (result ra = S_OK /\
   Audio.upstream_push CBaseInputPin_Receive_model AudioBuffer_Init_model
     callback_ok (post ra) [sample_good] =
   Audio.upstream_push CBaseInputPin_Receive_model AudioBuffer_Init_model
     callback_ok audio_filter_running [sample_good]) /\
  (result rv = E_FAIL /\
   Video.upstream_push CBaseInputPin_Receive_model VideoFrame_InitI420_model
     (post rv) [sample_good] =
   Video.upstream_push CBaseInputPin_Receive_model VideoFrame_InitI420_model
     video_filter_running [sample_good]).
Proof.
  intros ra rv.
  pose proof (Receive_after_failed_ingest
                CBaseInputPin_Receive_model CBaseInputPin_Receive_model
                AudioBuffer_Init_model callback_ok VideoFrame_InitI420_model
                audio_filter_running video_filter_running sample_null
                AudioBuffer_Init_model_overwrites
                VideoFrame_InitI420_model_overwrites) as [Ha Hv].
  split.
  - destruct (Ha eq_refl eq_refl) as (H1 & _ & _ & _ & _ & H2).
    split; [exact H1 | exact (H2 [sample_good])].
  - destruct (Hv eq_refl eq_refl) as (H1 & _ & _ & _ & H2).
    split; [exact H1 | exact (H2 [sample_good])].
Defined.

(** C3 as stated fails on the audio sink: a sample without time stamps fails
    ingest with [VFW_E_SAMPLE_TIME_NOT_SET], and the pin's [Receive] answers
    [S_OK] to the upstream caller, the error going to the log only. *)
Lemma AudioSinkPin_Receive_swallows_ingest_error :
  let ingest := Audio.AudioSinkFilter_OnSamplesReceived AudioBuffer_Init_model
                  callback_ok audio_filter_running (Some sample_no_time) in
  let delivery := Audio.AudioSinkPin_Receive CBaseInputPin_Receive_model
                    AudioBuffer_Init_model callback_ok audio_filter_running
                    sample_no_time in
  FAILED (CBaseInputPin_Receive_model (Audio.m_State audio_filter_running)
            sample_no_time) = false /\
  result ingest = VFW_E_SAMPLE_TIME_NOT_SET /\
  FAILED (result ingest) = true /\
  events ingest = [LOG ERROR "OnSamplesReceived cannot get media time(s)."] /\
  result delivery = S_OK /\
  result delivery <> result ingest /\
  events delivery = [LOG ERROR "OnSamplesReceived cannot get media time(s).";
                     LOG ERROR "OnSamplesReceived failed. "].
Proof.
  repeat split. discriminate.
Qed.

(** The empty-sample test as each sink has it.  When [GetPointer] answers
    [S_OK] or a failure: an audio sample whose byte pointer is null or whose
    length is not positive, and a video sample whose byte pointer is null,
    fail ingest there ([E_FAIL], or the failure of [GetPointer]); only the
    empty-sample error is logged, no callback is invoked and the filter is
    unchanged. *)
Lemma empty_sample_fails_ingest :
  forall (Init : AudioBuffer -> AudioConfig -> Z -> Z -> option (list byte) -> Z
                 -> Z * AudioBuffer)
         (callback : AudioBuffer -> Z)
         (InitI420 : VideoFrame -> Z -> Z -> Z -> option (list byte) -> Z
                     -> Z * VideoFrame)
         (af : Audio.AudioSinkFilter) (vf : Video.VideoSinkFilter)
         (s : IMediaSample),
    let hr := fst (GetPointer s) in
    let ptr_sample_buffer := snd (GetPointer s) in
    let oa := Audio.AudioSinkFilter_OnSamplesReceived Init callback af (Some s) in
    let ov := Video.VideoSinkFilter_OnFrameReceived InitI420 vf (Some s) in
    hr = S_OK \/ FAILED hr = true ->
    (ptr_sample_buffer = None \/ GetActualDataLength s <= 0 ->
       FAILED (result oa) = true /\
       result oa = (if hr =? S_OK then E_FAIL else hr) /\
       events oa = [LOG ERROR "OnSamplesReceived called with empty sample."] /\
       callback_count (events oa) = 0%nat /\
       post oa = af) /\
    (ptr_sample_buffer = None ->
       FAILED (result ov) = true /\
       result ov = (if hr =? S_OK then E_FAIL else hr) /\
       events ov = [LOG ERROR "OnFrameReceived called with empty sample."] /\
       callback_count (events ov) = 0%nat /\
       post ov = vf).
Proof.
  intros Init callback InitI420 af vf s hr p oa ov Hhr.
  assert (Hres : FAILED (if hr =? S_OK then E_FAIL else hr) = true).
  { destruct Hhr as [-> | Hf]; [reflexivity|].
    destruct (hr =? S_OK); [reflexivity | exact Hf]. }
  subst oa ov hr p.
  unfold Audio.AudioSinkFilter_OnSamplesReceived,
         Video.VideoSinkFilter_OnFrameReceived.
  destruct (GetPointer s) as [hr p]; simpl in *.
  split.
  - intros Hempty.
    assert (Hc : FAILED hr || is_null p || (GetActualDataLength s <=? 0) = true).
    { destruct Hempty as [-> | Hlen].
      - simpl. rewrite orb_true_r. reflexivity.
      - apply Z.leb_le in Hlen. rewrite Hlen. apply orb_true_r. }
    rewrite Hc. simpl. repeat split. exact Hres.
  - intros ->. simpl. rewrite orb_true_r. simpl. repeat split. exact Hres.
Qed.

Lemma empty_sample_fails_ingest_witness :
  let oa := Audio.AudioSinkFilter_OnSamplesReceived AudioBuffer_Init_model
              callback_ok audio_filter_running (Some sample_null) in
  let ov := Video.VideoSinkFilter_OnFrameReceived VideoFrame_InitI420_model
              video_filter_running (Some sample_null) in
  (fst (GetPointer sample_null) = S_OK \/
   FAILED (fst (GetPointer sample_null)) = true) /\
  snd (GetPointer sample_null) = None /\
  (result oa = E_FAIL /\ callback_count (events oa) = 0%nat /\
   post oa = audio_filter_running) /\
  (result ov = E_FAIL /\ callback_count (events ov) = 0%nat /\
   post ov = video_filter_running).
Proof.
  intros oa ov.
  assert (H0 : fst (GetPointer sample_null) = S_OK \/
               FAILED (fst (GetPointer sample_null)) = true)
    by (left; reflexivity).
  pose proof (empty_sample_fails_ingest AudioBuffer_Init_model callback_ok
                VideoFrame_InitI420_model audio_filter_running
                video_filter_running sample_null H0) as [Ha Hv].
  split; [exact H0|]. split; [reflexivity|]. split.
  - destruct (Ha (or_introl eq_refl)) as (_ & H2 & _ & H4 & H5).
    repeat split; assumption.
  - destruct (Hv eq_refl) as (_ & H2 & _ & H4 & H5).
    repeat split; assumption.
Defined.

(** An audio sample for which [GetPointer] answers [S_FALSE] with a null
    pointer is answered with [S_FALSE]: the empty-sample exit turns only
    [S_OK] into [E_FAIL]. *)
Lemma null_pointer_with_S_FALSE :
  let oa := Audio.AudioSinkFilter_OnSamplesReceived AudioBuffer_Init_model
              callback_ok audio_filter_running (Some sample_null_s_false) in
  snd (GetPointer sample_null_s_false) = None /\
  result oa = S_FALSE /\
  FAILED (result oa) = false /\
  callback_count (events oa) = 0%nat.
Proof.
  repeat split.
Qed.

(** C4.  The code at video samples that carry a buffer pointer and length 0.
    [OnFrameReceived] tests the pointer only, so such a sample passes the
    empty-sample test: when the media-time query fails, that failure is what
    ingest answers and logs; when it succeeds, the sample goes on to
    [InitI420] with length 0 and the status of [InitI420] alone decides
    between [S_OK] and [E_FAIL].  The empty-sample error is never logged. *)
Theorem OnFrameReceived_zero_length_passes_empty_test :
  forall (InitI420 : VideoFrame -> Z -> Z -> Z -> option (list byte) -> Z
                     -> Z * VideoFrame)
         (vf : Video.VideoSinkFilter),
    let o1 := Video.VideoSinkFilter_OnFrameReceived InitI420 vf
                (Some sample_zero_length_no_media_time) in
    let o2 := Video.VideoSinkFilter_OnFrameReceived InitI420 vf
                (Some sample_zero_length) in
    let init := InitI420 (Video.frame_ vf)
                  (width (Video.actual_config_ (Video.sink_pin_ vf)))
                  (height (Video.actual_config_ (Video.sink_pin_ vf)))
                  10000 (Some four_bytes) 0 in
    GetActualDataLength sample_zero_length_no_media_time <= 0 /\
    GetActualDataLength sample_zero_length <= 0 /\
    result o1 = VFW_E_MEDIA_TIME_NOT_SET /\
    result o1 <> E_FAIL /\
    events o1 = [LOG ERROR "OnFrameReceived cannot get media time(s)."] /\
    result o2 = (if fst init =? 0 then S_OK else E_FAIL) /\
    ~ In (LOG ERROR "OnFrameReceived called with empty sample.") (events o2).
Proof.
  intros InitI420 vf o1 o2 init.
  split; [discriminate|]. split; [discriminate|].
  split; [reflexivity|]. split; [discriminate|]. split; [reflexivity|].
  subst o2. unfold Video.VideoSinkFilter_OnFrameReceived. simpl.
  fold init. destruct init as [status frame]. simpl.
  destruct (status =? 0); simpl; split; try reflexivity;
    intros [H | []]; discriminate H.
Qed.

(** C7.  For an audio sample that passes the payload and time checks and
    whose buffer initialisation succeeds, ingest invokes the callback once on
    the fresh buffer and returns [S_OK] whatever status the callback answers;
    a non-zero status is logged as an error and appears nowhere in the
    result. *)
Theorem OnSamplesReceived_absorbs_callback_status :
  forall (Init : AudioBuffer -> AudioConfig -> Z -> Z -> option (list byte) -> Z
                 -> Z * AudioBuffer)
         (callback : AudioBuffer -> Z)
         (f : Audio.AudioSinkFilter) (s : IMediaSample)
         (hr_pointer hr_time start_time end_time : Z) (bytes : list byte),
    GetPointer s = (hr_pointer, Some bytes) ->
    FAILED hr_pointer = false ->
    0 < GetActualDataLength s ->
    GetTime s = (hr_time, start_time, end_time) ->
    FAILED hr_time = false ->
    let timestamp := media_time_to_milliseconds start_time in
    let init := Init (Audio.sample_buffer_ f)
                  (Audio.actual_config_ (Audio.sink_pin_ f)) timestamp
                  (Audio.sample_duration hr_time timestamp end_time)
                  (Some bytes) (GetActualDataLength s) in
    fst init = 0 ->
    let o := Audio.AudioSinkFilter_OnSamplesReceived Init callback f (Some s) in
    result o = S_OK /\
    filter is_callback (events o) =
      [SamplesCallback (snd init) (callback (snd init))] /\
    (callback (snd init) <> 0 ->
       In (LOG ERROR "OnSamplesReceived failed, status=") (events o)) /\
    (callback (snd init) = 0 ->
       ~ In (LOG ERROR "OnSamplesReceived failed, status=") (events o)).
Proof.
  intros Init callback f s hr1 hr2 start_time end_time bytes
         Hp Hf1 Hlen Ht Hf2 timestamp init Hinit o.
  subst o. unfold Audio.AudioSinkFilter_OnSamplesReceived.
  rewrite Hp, Hf1. simpl orb.
  assert (Hl : (GetActualDataLength s <=? 0) = false) by (apply Z.leb_gt; exact Hlen).
  rewrite Hl, Ht, Hf2.
  fold timestamp. fold init.
  destruct init as [status sample_buffer] eqn:Einit. simpl in Hinit. subst status.
  cbn [Z.eqb negb result events snd].
  split; [reflexivity|]. split; [|split].
  - rewrite !filter_app, no_stop_time_warning_callbacks. simpl.
    destruct (negb (callback sample_buffer =? 0)); reflexivity.
  - intros Hne. apply Z.eqb_neq in Hne. rewrite Hne.
    apply in_or_app. right. simpl. auto.
  - intros He. rewrite He. intros Hin.
    apply in_app_or in Hin. destruct Hin as [Hin | Hin].
    + unfold Audio.no_stop_time_warning in Hin.
      destruct (negb (hr2 =? VFW_S_NO_STOP_TIME)); simpl in Hin;
        [contradiction | destruct Hin as [Hin | []]; discriminate Hin].
    + simpl in Hin. destruct Hin as [Hin | [Hin | []]]; discriminate Hin.
Qed.

Lemma OnSamplesReceived_absorbs_callback_status_witness :
  let o := Audio.AudioSinkFilter_OnSamplesReceived AudioBuffer_Init_model
             callback_broken audio_filter_running (Some sample_good) in
  result o = S_OK /\
  callback_count (events o) = 1%nat /\
  In (LOG ERROR "OnSamplesReceived failed, status=") (events o).
Proof.
  intros o.
  assert (Hlen : 0 < GetActualDataLength sample_good) by reflexivity.
  destruct (OnSamplesReceived_absorbs_callback_status AudioBuffer_Init_model
              callback_broken audio_filter_running sample_good
              S_OK S_OK 10000 30000 four_bytes
              eq_refl eq_refl Hlen eq_refl eq_refl eq_refl)
    as (H1 & H2 & H3 & _).
  split; [exact H1|]. split.
  - unfold callback_count. fold o in H2. rewrite H2. reflexivity.
  - apply H3. discriminate.
Defined.

(* ------------------------------------------------------------------------- *)
(** ** The sinks on concrete inputs *)

Example FOURCC_I420_value : FOURCC_I420 = 0x30323449.
Proof. reflexivity. Qed.

Example audio_pcm_accepted :
  let o := Audio.AudioSinkPin_CheckMediaType AudioMediaType_Init_model
             audio_pin_empty mt_pcm in
  result o = S_OK /\
  snd (Audio.AudioSinkPin_config (post o) (Some AudioConfig_default)) =
    Some (mkAudioConfig WAVE_FORMAT_PCM 2 44100 176400 4 16 0 0).
Proof. split; reflexivity. Qed.

Example video_I420_accepted :
  let o := Video.VideoSinkPin_CheckMediaType video_pin_empty mt_video_I420 in
  result o = S_OK /\
  Video.actual_config_ (post o) = mkVideoConfig 640 480.
Proof. split; reflexivity. Qed.

Example audio_sample_delivered :
  let o := Audio.AudioSinkPin_Receive CBaseInputPin_Receive_model
             AudioBuffer_Init_model callback_ok audio_filter_running
             sample_good in
  result o = S_OK /\
  Audio.sample_buffer_ (post o) =
    mkAudioBuffer AudioConfig_default 1 2 four_bytes /\
  callback_count (events o) = 1%nat.
Proof. repeat split. Qed.

Example audio_sample_while_stopped :
  let stopped := Audio.mkFilter State_Stopped audio_pin_empty audio_buffer_empty in
  Audio.AudioSinkPin_Receive CBaseInputPin_Receive_model AudioBuffer_Init_model
    callback_ok stopped sample_good
  = mkOutcome VFW_E_WRONG_STATE stopped [].
Proof. reflexivity. Qed.

(* ========================================================================= *)
(** * Further properties of the two sinks *)

(* ------------------------------------------------------------------------- *)
(** ** Audio negotiation and enumeration *)

(** X1.  The audio negotiation accepts a proposal exactly when the major kind is
    audio, the proposal is not temporally compressed, the sub-kind is
    IEEE-float or PCM, a format type is present (whichever it is), the wave
    format parses and its tag is PCM, IEEE-float or extensible. *)
Theorem audio_CheckMediaType_accepts_iff :
  forall (AudioMediaType_Init : CMediaType -> Z * AudioMediaType.t)
         (pin : Audio.AudioSinkPin) (m : CMediaType),
    let tag := AudioMediaType.format_tag (snd (AudioMediaType_Init m)) in
    result (Audio.AudioSinkPin_CheckMediaType AudioMediaType_Init pin m) = S_OK <->
    (MajorType m = Some MEDIATYPE_Audio /\
     bTemporalCompression m = false /\
     (Subtype m = Some MEDIASUBTYPE_IEEE_FLOAT \/ Subtype m = Some MEDIASUBTYPE_PCM) /\
     FormatType m <> None /\
     fst (AudioMediaType_Init m) = 0 /\
     (tag = WAVE_FORMAT_PCM \/ tag = WAVE_FORMAT_IEEE_FLOAT \/
      tag = WAVE_FORMAT_EXTENSIBLE)).
Proof.
  intros Init pin m tag. split.
  - intros Hok.
    destruct (audio_CheckMediaType_accept_inv Init pin m Hok)
      as (g & fmt & Hm & Hc & Hs & Hin & Hf & Hinit & Htag & _).
    subst tag. rewrite Hinit. simpl.
    apply subtype_ok_spec in Hin. apply format_tag_supported_spec in Htag.
    repeat split; auto. destruct Hin; subst g; auto.
  - intros (Hm & Hc & Hs & Hf & Hinit & Htag).
    unfold Audio.AudioSinkPin_CheckMediaType.
    rewrite Hm, GUID_eqb_refl, Hc. simpl.
    assert (Hsub : exists g, Subtype m = Some g /\ Audio.subtype_ok g = true).
    { destruct Hs as [Hs | Hs]; eexists; (split; [exact Hs|]);
        apply subtype_ok_spec; auto. }
    destruct Hsub as (g & -> & Hg).
    destruct (FormatType m) as [fg|]; [|contradiction].
    rewrite Hg. simpl.
    subst tag. destruct (Init m) as [status format]. simpl in *. subst status.
    apply format_tag_supported_spec in Htag. rewrite Htag. reflexivity.
Qed.

Lemma audio_CheckMediaType_accepts_iff_witness :
  result (Audio.AudioSinkPin_CheckMediaType AudioMediaType_Init_model
            audio_pin_empty
            (mkMediaType (Some MEDIATYPE_Audio) (Some MEDIASUBTYPE_IEEE_FLOAT)
               (Some FORMAT_None) false (Some (block_of_wave wave_pcm_stereo))))
  = S_OK.
Proof.
  apply (audio_CheckMediaType_accepts_iff AudioMediaType_Init_model).
  repeat split; try reflexivity; auto. discriminate.
Defined.


Lemma store_format_idempotent (old : AudioConfig) (format : AudioMediaType.t) :
  Audio.store_format (Audio.store_format old format) format =
  Audio.store_format old format.
Proof.
  unfold Audio.store_format; simpl.
  destruct (AudioMediaType.format_tag format =? WAVE_FORMAT_EXTENSIBLE);
    reflexivity.
Qed.

(** X3.  Putting the same proposal to a pin a second time gives the same verdict
    and changes nothing further: negotiation is idempotent. *)
Theorem CheckMediaType_idempotent :
  forall (AudioMediaType_Init : CMediaType -> Z * AudioMediaType.t)
         (apin : Audio.AudioSinkPin) (vpin : Video.VideoSinkPin)
         (m : CMediaType),
    let oa := Audio.AudioSinkPin_CheckMediaType AudioMediaType_Init apin m in
    let ov := Video.VideoSinkPin_CheckMediaType vpin m in
    Audio.AudioSinkPin_CheckMediaType AudioMediaType_Init (post oa) m = oa /\
    Video.VideoSinkPin_CheckMediaType (post ov) m = ov.
Proof.
  intros Init apin vpin m. split.
  - unfold Audio.AudioSinkPin_CheckMediaType.
    destruct (MajorType m) as [tg|]; [|reflexivity].
    destruct (negb (GUID_eqb tg MEDIATYPE_Audio)); [reflexivity|].
    destruct (bTemporalCompression m); [reflexivity|].
    destruct (Subtype m) as [sg|]; [|reflexivity].
    destruct (FormatType m) as [fg|]; [|reflexivity].
    destruct (negb (Audio.subtype_ok sg)); [reflexivity|].
    destruct (Init m) as [status format].
    destruct (negb (status =? 0)); [reflexivity|].
    destruct (negb (Audio.format_tag_supported (AudioMediaType.format_tag format)));
      [reflexivity|].
    simpl. rewrite store_format_idempotent. reflexivity.
  - assert (Hinfo : forall g h,
      Video.check_video_info (post (Video.check_video_info vpin g h)) g h =
      Video.check_video_info vpin g h).
    { intros g [bmi|]; unfold Video.check_video_info; [|reflexivity].
      destruct (negb (GUID_eqb g MEDIASUBTYPE_I420) ||
                negb (biCompression bmi =? MAKEFOURCC 73 52 50 48));
        reflexivity. }
    unfold Video.VideoSinkPin_CheckMediaType.
    destruct (MajorType m) as [tg|]; [|reflexivity].
    destruct (negb (GUID_eqb tg MEDIATYPE_Video)); [reflexivity|].
    destruct (Subtype m) as [sg|]; [|reflexivity].
    destruct (FormatType m) as [fg|]; [|reflexivity].
    destruct (GUID_eqb fg FORMAT_VideoInfo); [apply Hinfo|].
    destruct (GUID_eqb fg FORMAT_VideoInfo2); [apply Hinfo|].
    reflexivity.
Qed.

(** X4.  [set_config] on a stopped audio filter, an accepted proposal, then
    [config]: the caller reads back the six wave-format fields of the parsed
    record, and valid-bits-per-sample and channel mask of the record when its
    tag is extensible, zero otherwise.  Nothing of the value given to
    [set_config] is read back. *)
Theorem audio_config_after_negotiation :
  forall (AudioMediaType_Init : CMediaType -> Z * AudioMediaType.t)
         (f : Audio.AudioSinkFilter) (wanted old : AudioConfig) (m : CMediaType),
    Audio.m_State f = State_Stopped ->
    let f1 := post (Audio.AudioSinkFilter_set_config f wanted) in
    let o := Audio.AudioSinkPin_CheckMediaType AudioMediaType_Init
               (Audio.sink_pin_ f1) m in
    let f2 := Audio.mkFilter (Audio.m_State f1) (post o) (Audio.sample_buffer_ f1) in
    let format := snd (AudioMediaType_Init m) in
    let extensible := AudioMediaType.format_tag format =? WAVE_FORMAT_EXTENSIBLE in
    result o = S_OK ->
    snd (Audio.AudioSinkFilter_config f2 (Some old)) =
      Some (mkAudioConfig
              (AudioMediaType.format_tag format)
              (AudioMediaType.channels format)
              (AudioMediaType.sample_rate format)
              (AudioMediaType.bytes_per_second format)
              (AudioMediaType.block_align format)
              (AudioMediaType.bits_per_sample format)
              (if extensible then AudioMediaType.valid_bits_per_sample format else 0)
              (if extensible then AudioMediaType.channel_mask format else 0)).
Proof.
  intros Init f wanted old m Hst f1 o f2 format extensible Hok.
  destruct (audio_CheckMediaType_accept_inv Init _ m Hok)
    as (g & fmt & _ & _ & _ & _ & _ & Hinit & _ & Hpost).
  subst f2 o format extensible. unfold Audio.AudioSinkFilter_config. simpl.
  rewrite Hpost, Hinit. subst f1.
  unfold Audio.AudioSinkFilter_set_config. rewrite Hst. simpl.
  unfold Audio.store_format. simpl.
  destruct (AudioMediaType.format_tag fmt =? WAVE_FORMAT_EXTENSIBLE); reflexivity.
Qed.

Lemma audio_config_after_negotiation_witness :
  let f1 := post (Audio.AudioSinkFilter_set_config audio_filter_stopped
                    (mkAudioConfig 3 2 48000 384000 8 32 0 0)) in
  let o := Audio.AudioSinkPin_CheckMediaType AudioMediaType_Init_model
             (Audio.sink_pin_ f1) mt_extensible in
  let f2 := Audio.mkFilter (Audio.m_State f1) (post o) (Audio.sample_buffer_ f1) in
  snd (Audio.AudioSinkFilter_config f2 (Some AudioConfig_default)) =
    Some (mkAudioConfig WAVE_FORMAT_EXTENSIBLE 2 48000 288000 6 24 24 3).
Proof.
  exact (audio_config_after_negotiation AudioMediaType_Init_model
           audio_filter_stopped (mkAudioConfig 3 2 48000 384000 8 32 0 0)
           AudioConfig_default mt_extensible eq_refl eq_refl).
Defined.

(** X5.  Reading the configuration right after a successful [set_config] gives the
    empty configuration, not the value just set; after a refused
    [set_config] it gives what it gave before.  Audio and video alike. *)
Theorem config_after_set_config :
  forall (af : Audio.AudioSinkFilter) (awanted aold : AudioConfig)
         (vf : Video.VideoSinkFilter) (vwanted vold : VideoConfig),
    let af' := post (Audio.AudioSinkFilter_set_config af awanted) in
    let vf' := post (Video.VideoSinkFilter_set_config vf vwanted) in
    snd (Audio.AudioSinkFilter_config af' (Some aold)) =
      (if is_stopped (Audio.m_State af) then Some AudioConfig_default
       else snd (Audio.AudioSinkFilter_config af (Some aold))) /\
    snd (Video.VideoSinkFilter_config vf' (Some vold)) =
      (if is_stopped (Video.m_State vf) then Some VideoConfig_default
       else snd (Video.VideoSinkFilter_config vf (Some vold))).
Proof.
  intros af awanted aold vf vwanted vold.
  unfold Audio.AudioSinkFilter_set_config, Video.VideoSinkFilter_set_config,
         Audio.AudioSinkFilter_config, Video.VideoSinkFilter_config.
  destruct (is_stopped (Audio.m_State af)), (is_stopped (Video.m_State vf));
    split; reflexivity.
Qed.

(** X6.  The three kinds of answer of the audio enumeration: [E_INVALIDARG] exactly
    for a negative index or a null media type, end-of-list exactly for a
    non-null media type and an index above the count, [S_OK] exactly for a
    non-null media type and an index from 0 to the count; the caller's media
    type is written only with [S_OK], and then its temporal-compression flag
    and format block are kept. *)
Theorem AudioSinkPin_GetMediaType_answers :
  forall (past_the_table : GUID) (type_index : Z)
         (ptr_media_type : option CMediaType),
    let r := Audio.AudioSinkPin_GetMediaType past_the_table type_index
               ptr_media_type in
    (fst r = E_INVALIDARG <-> type_index < 0 \/ ptr_media_type = None) /\
    (fst r = VFW_S_NO_MORE_ITEMS <->
       ptr_media_type <> None /\ Audio.kNumInputSubTypes < type_index) /\
    (fst r = S_OK <->
       ptr_media_type <> None /\ 0 <= type_index <= Audio.kNumInputSubTypes) /\
    (fst r <> S_OK -> snd r = ptr_media_type) /\
    (fst r = S_OK ->
       exists m m', ptr_media_type = Some m /\ snd r = Some m' /\
         MajorType m' = Some MEDIATYPE_Audio /\
         FormatType m' = Some FORMAT_WaveFormatEx /\
         bTemporalCompression m' = bTemporalCompression m /\
         Format m' = Format m).
Proof.
  intros past i pm. unfold Audio.AudioSinkPin_GetMediaType, Audio.kNumInputSubTypes.
  destruct pm as [m|]; simpl.
  - destruct (Z.ltb_spec i 0) as [E0 | E0]; simpl;
      [|destruct (Z.gtb_spec i 2) as [E2 | E2]; simpl];
      (split; [|split; [|split; [|split]]]);
      try (split; intros; try discriminate; try lia; try tauto);
      try (intros; try discriminate; try lia; try congruence; fail);
      try (intros [_ ?]; lia);
      try (intros [? | ?]; [lia | discriminate]);
      try (split; [discriminate | lia]);
      try (exfalso; destruct H as [H | H]; [lia | discriminate H]).
    intros _. eexists m, _. repeat split.
  - (split; [|split; [|split; [|split]]]);
      try (split; intros; try discriminate; try tauto);
      try (intros; try discriminate; try congruence; fail);
      try (intros [? _]; congruence).
Qed.

(** X7.  The two formats the audio pin advertises pass every test of its own
    negotiation that does not look into the format block: offered back with
    the temporal-compression flag clear, format 0 or 1 is accepted exactly
    when the wave format parses with a supported tag, and the format-type
    advisory is not logged. *)
Theorem audio_advertised_format_negotiates :
  forall (past_the_table : GUID)
         (AudioMediaType_Init : CMediaType -> Z * AudioMediaType.t)
         (pin : Audio.AudioSinkPin) (m : CMediaType) (type_index : Z),
    type_index = 0 \/ type_index = 1 ->
    bTemporalCompression m = false ->
    exists m',
      Audio.AudioSinkPin_GetMediaType past_the_table type_index (Some m)
        = (S_OK, Some m') /\
      let o := Audio.AudioSinkPin_CheckMediaType AudioMediaType_Init pin m' in
      (result o = S_OK <->
         fst (AudioMediaType_Init m') = 0 /\
         Audio.format_tag_supported
           (AudioMediaType.format_tag (snd (AudioMediaType_Init m'))) = true) /\
      ~ In (LOG INFO "rejecting type: format not FORMAT_WaveFormatEx.") (events o).
Proof.
  intros past Init pin m i Hi Hc.
  assert (Hgoal : forall sg, Audio.subtype_ok sg = true ->
    let m' := mkMediaType (Some MEDIATYPE_Audio) (Some sg)
                (Some FORMAT_WaveFormatEx) (bTemporalCompression m) (Format m) in
    let o := Audio.AudioSinkPin_CheckMediaType Init pin m' in
    (result o = S_OK <->
       fst (Init m') = 0 /\
       Audio.format_tag_supported
         (AudioMediaType.format_tag (snd (Init m'))) = true) /\
    ~ In (LOG INFO "rejecting type: format not FORMAT_WaveFormatEx.") (events o)).
  { intros sg Hsg m' o. subst o. unfold Audio.AudioSinkPin_CheckMediaType.
    cbn [MajorType Subtype FormatType bTemporalCompression m'].
    rewrite !GUID_eqb_refl, Hc, Hsg. cbn [negb app].
    destruct (Init m') as [status format]. cbn [fst snd].
    destruct (status =? 0) eqn:E0; cbn [negb].
    - apply Z.eqb_eq in E0. subst status.
      destruct (Audio.format_tag_supported (AudioMediaType.format_tag format));
        cbn [negb result events]; split;
        try (split; [intros; auto | intros; reflexivity]);
        try (split; [discriminate | intros [_ H]; discriminate H]);
        intros [H | []]; discriminate H.
    - apply Z.eqb_neq in E0. cbn [result events]. split.
      + split; [discriminate | intros [H _]; contradiction].
      + intros [H | []]; discriminate H. }
  destruct Hi as [-> | ->].
  - eexists. split; [reflexivity|]. apply Hgoal. reflexivity.
  - eexists. split; [reflexivity|]. apply Hgoal. reflexivity.
Qed.

Lemma audio_advertised_format_negotiates_witness :
  exists m',
    Audio.AudioSinkPin_GetMediaType FORMAT_None 1 (Some mt_audio_rgb24)
      = (S_OK, Some m') /\
    result (Audio.AudioSinkPin_CheckMediaType AudioMediaType_Init_model
              audio_pin_empty m') = S_OK.
Proof.
  destruct (audio_advertised_format_negotiates FORMAT_None
              AudioMediaType_Init_model audio_pin_empty mt_audio_rgb24 1
              (or_intror eq_refl) eq_refl) as (m' & Hget & Hiff & _).
  exists m'. split; [exact Hget|].
  apply Hiff. inversion Hget. subst m'. split; reflexivity.
Defined.

(* ------------------------------------------------------------------------- *)
(** ** Delivery *)

(** X8.  A sample the base pin refuses never reaches ingest: both pins return the
    base status and leave the filter as it was.  The audio pin logs the
    refusal unless it is [VFW_E_WRONG_STATE] (the delivery that follows a
    stop), the video pin logs nothing. *)
Theorem Receive_refused_by_base_pin :
  forall (abase vbase : FILTER_STATE -> IMediaSample -> HRESULT)
         (Init : AudioBuffer -> AudioConfig -> Z -> Z -> option (list byte) -> Z
                 -> Z * AudioBuffer)
         (callback : AudioBuffer -> Z)
         (InitI420 : VideoFrame -> Z -> Z -> Z -> option (list byte) -> Z
                     -> Z * VideoFrame)
         (af : Audio.AudioSinkFilter) (vf : Video.VideoSinkFilter)
         (s : IMediaSample),
    let oa := Audio.AudioSinkPin_Receive abase Init callback af s in
    let ov := Video.VideoSinkPin_Receive vbase InitI420 vf s in
    (FAILED (abase (Audio.m_State af) s) = true ->
       result oa = abase (Audio.m_State af) s /\
       post oa = af /\
       events oa =
         (if abase (Audio.m_State af) s =? VFW_E_WRONG_STATE then []
          else [LOG ERROR "CBaseInputPin::Receive failed. "])) /\
    (FAILED (vbase (Video.m_State vf) s) = true ->
       result ov = vbase (Video.m_State vf) s /\
       post ov = vf /\
       events ov = []).
Proof.
  intros abase vbase Init callback InitI420 af vf s oa ov. split.
  - intros Hf. subst oa. unfold Audio.AudioSinkPin_Receive. rewrite Hf.
    destruct (abase (Audio.m_State af) s =? VFW_E_WRONG_STATE);
      repeat split.
  - intros Hf. subst ov. unfold Video.VideoSinkPin_Receive.
    rewrite SUCCEEDED_FAILED, Hf. repeat split.
Qed.

Lemma Receive_refused_by_base_pin_witness :
  Audio.AudioSinkPin_Receive CBaseInputPin_Receive_model AudioBuffer_Init_model
    callback_ok audio_filter_stopped sample_good
    = mkOutcome VFW_E_WRONG_STATE audio_filter_stopped [] /\
  Video.VideoSinkPin_Receive CBaseInputPin_Receive_model
    VideoFrame_InitI420_model video_filter_stopped sample_good
    = mkOutcome VFW_E_WRONG_STATE video_filter_stopped [].
Proof.
  pose proof (Receive_refused_by_base_pin CBaseInputPin_Receive_model
                CBaseInputPin_Receive_model AudioBuffer_Init_model callback_ok
                VideoFrame_InitI420_model audio_filter_stopped
                video_filter_stopped sample_good) as [Ha Hv].
  destruct (Ha eq_refl) as (_ & _ & _). destruct (Hv eq_refl) as (_ & _ & _).
  split; reflexivity.
Defined.

(** X9.  The consumer's callback runs once when audio ingest returns [S_OK] and
    not at all otherwise; one delivery never runs it twice; and the buffer it
    is handed is the one in the filter's slot after the call, recorded with
    the status the consumer answered. *)
Theorem audio_callback_once_per_ingested_sample :
  forall (base : FILTER_STATE -> IMediaSample -> HRESULT)
         (Init : AudioBuffer -> AudioConfig -> Z -> Z -> option (list byte) -> Z
                 -> Z * AudioBuffer)
         (callback : AudioBuffer -> Z)
         (f : Audio.AudioSinkFilter) (s : IMediaSample),
    let ingest := Audio.AudioSinkFilter_OnSamplesReceived Init callback f (Some s) in
    let o := Audio.AudioSinkPin_Receive base Init callback f s in
    callback_count (events ingest) =
      (if result ingest =? S_OK then 1%nat else 0%nat) /\
    (callback_count (events o) <= 1)%nat /\
    (forall b status, In (SamplesCallback b status) (events o) ->
       b = Audio.sample_buffer_ (post o) /\ status = callback b).
Proof.
  intros base Init callback f s ingest o.
  assert (Hw : forall hr b st,
            ~ In (SamplesCallback b st) (Audio.no_stop_time_warning hr)).
  { intros hr b st. unfold Audio.no_stop_time_warning.
    destruct (negb (hr =? VFW_S_NO_STOP_TIME)); simpl;
      [tauto | intros [H | []]; discriminate H]. }
  assert (Hingest :
    callback_count (events ingest) = (if result ingest =? S_OK then 1%nat else 0%nat) /\
    (forall b status, In (SamplesCallback b status) (events ingest) ->
       b = Audio.sample_buffer_ (post ingest) /\ status = callback b)).
  { subst ingest. unfold Audio.AudioSinkFilter_OnSamplesReceived.
    destruct (GetPointer s) as [hr1 p].
    destruct (FAILED hr1 || is_null p || (GetActualDataLength s <=? 0)).
    - cbn [result events post]. split.
      + destruct (hr1 =? S_OK) eqn:E; [reflexivity | rewrite E; reflexivity].
      + intros b st [H | []]; discriminate H.
    - destruct (GetTime s) as [[hr2 start_time] end_time].
      destruct (FAILED hr2) eqn:Ef2.
      + cbn [result events post]. split.
        * unfold FAILED in Ef2. apply Z.ltb_lt in Ef2.
          destruct (Z.eqb_spec hr2 S_OK) as [E | E];
            [unfold S_OK in E; lia | reflexivity].
        * intros b st [H | []]; discriminate H.
      + destruct (Init _ _ _ _ _ _) as [status sb].
        destruct (negb (status =? 0)); cbn [result events post].
        * split.
          -- rewrite callback_count_app. unfold callback_count.
             rewrite no_stop_time_warning_callbacks. reflexivity.
          -- intros b st Hin. apply in_app_or in Hin.
             destruct Hin as [Hin | [Hin | []]];
               [exfalso; exact (Hw _ _ _ Hin) | discriminate Hin].
        * split.
          -- rewrite !callback_count_app. unfold callback_count.
             rewrite no_stop_time_warning_callbacks.
             destruct (negb (callback sb =? 0)); reflexivity.
          -- intros b st Hin. apply in_app_or in Hin.
             destruct Hin as [Hin | Hin]; [exfalso; exact (Hw _ _ _ Hin)|].
             apply in_app_or in Hin. destruct Hin as [Hin | Hin].
             ++ destruct Hin as [Hin | [Hin | []]]; [discriminate Hin|].
                inversion Hin. subst. split; reflexivity.
             ++ destruct (negb (callback sb =? 0)); simpl in Hin;
                  [destruct Hin as [Hin | []]; discriminate Hin | contradiction]. }
  destruct Hingest as [Hcount Hin]. split; [exact Hcount|].
  subst o. unfold Audio.AudioSinkPin_Receive.
  destruct (FAILED (base (Audio.m_State f) s)).
  - cbn [result events post]. split.
    + destruct (negb (base (Audio.m_State f) s =? VFW_E_WRONG_STATE));
        unfold callback_count; simpl; lia.
    + intros b st H.
      destruct (negb (base (Audio.m_State f) s =? VFW_E_WRONG_STATE));
        simpl in H; [destruct H as [H | []]; discriminate H | contradiction].
  - fold ingest. cbn [result events post]. split.
    + rewrite callback_count_app, Hcount.
      destruct (result ingest =? S_OK), (FAILED (result ingest));
        unfold callback_count; simpl; lia.
    + intros b st H. apply in_app_or in H. destruct H as [H | H].
      * apply Hin; exact H.
      * destruct (FAILED (result ingest)); simpl in H;
          [destruct H as [H | []]; discriminate H | contradiction].
Qed.

(** X10.  A sample the source delivers without stop time (GetTime answers
    [VFW_S_NO_STOP_TIME]) is ingested with duration 0 whatever the end-time
    variable holds, with a warning in the log; it succeeds or fails on the
    status of the buffer initialisation alone. *)
Theorem audio_sample_without_stop_time :
  forall (Init : AudioBuffer -> AudioConfig -> Z -> Z -> option (list byte) -> Z
                 -> Z * AudioBuffer)
         (callback : AudioBuffer -> Z)
         (f : Audio.AudioSinkFilter) (s : IMediaSample)
         (hr_pointer start_time end_time : Z) (bytes : list byte),
    GetPointer s = (hr_pointer, Some bytes) ->
    FAILED hr_pointer = false ->
    0 < GetActualDataLength s ->
    GetTime s = (VFW_S_NO_STOP_TIME, start_time, end_time) ->
    let init := Init (Audio.sample_buffer_ f)
                  (Audio.actual_config_ (Audio.sink_pin_ f))
                  (media_time_to_milliseconds start_time) 0
                  (Some bytes) (GetActualDataLength s) in
    let o := Audio.AudioSinkFilter_OnSamplesReceived Init callback f (Some s) in
    result o = (if fst init =? 0 then S_OK else E_FAIL) /\
    Audio.sample_buffer_ (post o) = snd init /\
    In (LOG WARNING "OnSamplesReceived sample has no stop time.") (events o) /\
    (fst init = 0 -> In (SamplesCallback (snd init) (callback (snd init))) (events o)).
Proof.
  intros Init callback f s hr1 start_time end_time bytes Hp Hf1 Hlen Ht init o.
  subst o. unfold Audio.AudioSinkFilter_OnSamplesReceived.
  rewrite Hp, Hf1. simpl orb.
  assert (Hl : (GetActualDataLength s <=? 0) = false) by (apply Z.leb_gt; exact Hlen).
  rewrite Hl, Ht.
  change (FAILED VFW_S_NO_STOP_TIME) with false.
  change (Audio.sample_duration VFW_S_NO_STOP_TIME
            (media_time_to_milliseconds start_time) end_time) with 0.
  change (Audio.no_stop_time_warning VFW_S_NO_STOP_TIME)
    with [LOG WARNING "OnSamplesReceived sample has no stop time."].
  fold init. destruct init as [status sb]. cbn [fst snd].
  destruct (status =? 0) eqn:E0; cbn [negb result post events Audio.sample_buffer_].
  - repeat split.
    + left. reflexivity.
    + intros _. right. right. left. reflexivity.
  - repeat split.
    + left. reflexivity.
    + intros ->. discriminate E0.
Qed.

Lemma audio_sample_without_stop_time_witness :
  let o := Audio.AudioSinkFilter_OnSamplesReceived AudioBuffer_Init_model
             callback_ok audio_filter_running (Some sample_no_stop_time) in
  result o = S_OK /\
  duration (Audio.sample_buffer_ (post o)) = 0 /\
  timestamp (Audio.sample_buffer_ (post o)) = 1.
Proof.
  intros o.
  assert (Hlen : 0 < GetActualDataLength sample_no_stop_time) by reflexivity.
  destruct (audio_sample_without_stop_time AudioBuffer_Init_model callback_ok
              audio_filter_running sample_no_stop_time S_OK 10000 0 four_bytes
              eq_refl eq_refl Hlen eq_refl) as (H1 & H2 & _).
  fold o in H1, H2. split; [exact H1|]. rewrite H2. split; reflexivity.
Defined.

(** X11.  A sample that is turned away before the buffer is initialised (empty
    payload or failed time query) leaves the whole filter, slot included,
    exactly as it was: the previous sample or frame stays in the slot. *)
Theorem early_rejection_keeps_slot :
  forall (Init : AudioBuffer -> AudioConfig -> Z -> Z -> option (list byte) -> Z
                 -> Z * AudioBuffer)
         (callback : AudioBuffer -> Z)
         (InitI420 : VideoFrame -> Z -> Z -> Z -> option (list byte) -> Z
                     -> Z * VideoFrame)
         (af : Audio.AudioSinkFilter) (vf : Video.VideoSinkFilter)
         (s : IMediaSample),
    (FAILED (fst (GetPointer s)) = true \/ snd (GetPointer s) = None \/
     GetActualDataLength s <= 0 \/ FAILED (fst (fst (GetTime s))) = true ->
       post (Audio.AudioSinkFilter_OnSamplesReceived Init callback af (Some s)) = af) /\
    (FAILED (fst (GetPointer s)) = true \/ snd (GetPointer s) = None \/
     FAILED (fst (fst (GetMediaTime s))) = true ->
       post (Video.VideoSinkFilter_OnFrameReceived InitI420 vf (Some s)) = vf).
Proof.
  intros Init callback InitI420 af vf s. split.
  - unfold Audio.AudioSinkFilter_OnSamplesReceived.
    destruct (GetPointer s) as [hr1 p]. destruct (GetTime s) as [[hr2 st] en].
    cbn [fst snd]. intros H.
    destruct (FAILED hr1 || is_null p || (GetActualDataLength s <=? 0)) eqn:E;
      [reflexivity|].
    apply orb_false_iff in E. destruct E as [E E3].
    apply orb_false_iff in E. destruct E as [E1 E2].
    destruct H as [H | [H | [H | H]]].
    + congruence.
    + subst p. discriminate E2.
    + apply Z.leb_gt in E3. lia.
    + rewrite H. reflexivity.
  - unfold Video.VideoSinkFilter_OnFrameReceived.
    destruct (GetPointer s) as [hr1 p]. destruct (GetMediaTime s) as [[hr2 st] en].
    cbn [fst snd]. intros H.
    destruct (FAILED hr1 || is_null p) eqn:E; [reflexivity|].
    apply orb_false_iff in E. destruct E as [E1 E2].
    destruct H as [H | [H | H]].
    + congruence.
    + subst p. discriminate E2.
    + rewrite H. reflexivity.
Qed.

Lemma early_rejection_keeps_slot_witness :
  post (Audio.AudioSinkFilter_OnSamplesReceived AudioBuffer_Init_model
          callback_ok audio_filter_running (Some sample_no_time))
    = audio_filter_running /\
  post (Video.VideoSinkFilter_OnFrameReceived VideoFrame_InitI420_model
          video_filter_running (Some sample_no_time))
    = video_filter_running.
Proof.
  pose proof (early_rejection_keeps_slot AudioBuffer_Init_model callback_ok
                VideoFrame_InitI420_model audio_filter_running
                video_filter_running sample_no_time) as [Ha Hv].
  split.
  - apply Ha. right. right. right. reflexivity.
  - apply Hv. right. right. reflexivity.
Defined.

(** X12.  The sinks keep nothing from one delivery to the next: with a slot that
    every [Init] overwrites, the answers and events of a run of deliveries
    are those each sample would get if it were delivered alone to the
    filter the run started from. *)
Theorem deliveries_are_independent :
  forall (abase vbase : FILTER_STATE -> IMediaSample -> HRESULT)
         (Init : AudioBuffer -> AudioConfig -> Z -> Z -> option (list byte) -> Z
                 -> Z * AudioBuffer)
         (callback : AudioBuffer -> Z)
         (InitI420 : VideoFrame -> Z -> Z -> Z -> option (list byte) -> Z
                     -> Z * VideoFrame)
         (af : Audio.AudioSinkFilter) (vf : Video.VideoSinkFilter)
         (samples : list IMediaSample),
    audio_slot_overwritten Init ->
    video_slot_overwritten InitI420 ->
    Audio.upstream_push abase Init callback af samples =
      map (fun s => let o := Audio.AudioSinkPin_Receive abase Init callback af s in
                    (result o, events o)) samples /\
    Video.upstream_push vbase InitI420 vf samples =
      map (fun s => let o := Video.VideoSinkPin_Receive vbase InitI420 vf s in
                    (result o, events o)) samples.
Proof.
  intros abase vbase Init callback InitI420 af vf samples Hov Hovv. split.
  - induction samples as [|s rest IH]; [reflexivity|].
    cbn [Audio.upstream_push map]. f_equal.
    transitivity (Audio.upstream_push abase Init callback af rest); [|exact IH].
    apply audio_upstream_push_same_but_slot; [exact Hov|].
    apply audio_Receive_post.
  - induction samples as [|s rest IH]; [reflexivity|].
    cbn [Video.upstream_push map]. f_equal.
    transitivity (Video.upstream_push vbase InitI420 vf rest); [|exact IH].
    apply video_upstream_push_same_but_slot; [exact Hovv|].
    apply video_Receive_post.
Qed.

Lemma deliveries_are_independent_witness :
  Audio.upstream_push CBaseInputPin_Receive_model AudioBuffer_Init_model
    callback_broken audio_filter_running
    [sample_good; sample_no_time; sample_good] =
  map (fun s =>
         let o := Audio.AudioSinkPin_Receive CBaseInputPin_Receive_model
                    AudioBuffer_Init_model callback_broken
                    audio_filter_running s in
         (result o, events o))
      [sample_good; sample_no_time; sample_good].
Proof.
  exact (proj1 (deliveries_are_independent CBaseInputPin_Receive_model
                  CBaseInputPin_Receive_model AudioBuffer_Init_model
                  callback_broken VideoFrame_InitI420_model
                  audio_filter_running video_filter_running
                  [sample_good; sample_no_time; sample_good]
                  AudioBuffer_Init_model_overwrites
                  VideoFrame_InitI420_model_overwrites)).
Defined.

(* ------------------------------------------------------------------------- *)
(** ** Video negotiation and enumeration *)

Lemma abs32_in_range (x : Z) :
  - 2 ^ 31 < x < 2 ^ 31 -> abs32 x = Z.abs x.
Proof.
  intros Hx. unfold abs32, wrap32, wrap_signed.
  rewrite Z.mod_small by lia.
  destruct (Z.ltb_spec (Z.abs x) (2 ^ (32 - 1))) as [H | H];
    [reflexivity | simpl in H; lia].
Qed.

(** X13.  The video negotiation accepts a proposal exactly when the major kind is
    video, sub-kind and layout-kind are present and, if the layout-kind is
    one of the two video-info representations, the format block is there,
    the sub-kind is I420 and the compression tag of the header is 'I420'. *)
Theorem video_CheckMediaType_accepts_iff :
  forall (pin : Video.VideoSinkPin) (m : CMediaType),
    result (Video.VideoSinkPin_CheckMediaType pin m) = S_OK <->
    (MajorType m = Some MEDIATYPE_Video /\
     exists subtype_guid format_guid,
       Subtype m = Some subtype_guid /\
       FormatType m = Some format_guid /\
       (format_guid = FORMAT_VideoInfo \/ format_guid = FORMAT_VideoInfo2 ->
          subtype_guid = MEDIASUBTYPE_I420 /\
          exists fb, Format m = Some fb /\
            biCompression (video_view format_guid fb) = FOURCC_I420)).
Proof.
  intros pin m.
  assert (Hinfo : forall g h,
    result (Video.check_video_info pin g h) = S_OK <->
    g = MEDIASUBTYPE_I420 /\ exists bmi, h = Some bmi /\ biCompression bmi = FOURCC_I420).
  { intros g [bmi|]; unfold Video.check_video_info.
    - destruct (GUID_eqb g MEDIASUBTYPE_I420) eqn:Eg; simpl.
      + apply GUID_eqb_eq in Eg.
        destruct (Z.eqb_spec (biCompression bmi) (MAKEFOURCC 73 52 50 48)) as [Ec | Ec];
          simpl.
        * split; [|reflexivity]. intros _. split; [exact Eg|].
          exists bmi. split; [reflexivity | exact Ec].
        * split; [discriminate|]. intros (_ & b & Hb & Hc).
          inversion Hb; subst b. contradiction.
      + apply GUID_eqb_neq in Eg. split; [discriminate | intros [H _]; contradiction].
    - split; [discriminate | intros (_ & b & Hb & _); discriminate Hb]. }
  unfold Video.VideoSinkPin_CheckMediaType, video_view.
  destruct (MajorType m) as [tg|];
    [|split; [discriminate | intros [H _]; discriminate H]].
  destruct (GUID_eqb tg MEDIATYPE_Video) eqn:Et; simpl.
  2:{ apply GUID_eqb_neq in Et.
      split; [discriminate | intros [H _]; congruence]. }
  apply GUID_eqb_eq in Et. subst tg.
  destruct (Subtype m) as [sg|];
    [|split; [discriminate | intros (_ & g & fg & H & _); discriminate H]].
  destruct (FormatType m) as [fg|];
    [|split; [discriminate | intros (_ & g & fg & _ & H & _); discriminate H]].
  destruct (GUID_eqb fg FORMAT_VideoInfo) eqn:E1.
  - apply GUID_eqb_eq in E1. subst fg. rewrite Hinfo. split.
    + intros (Hs & bmi & Hb & Hc). split; [reflexivity|].
      exists sg, FORMAT_VideoInfo. repeat split; auto.
      destruct (Format m) as [fb|]; [|discriminate Hb].
      inversion Hb. subst bmi. exists fb. rewrite GUID_eqb_refl. auto.
    + intros (_ & g & fg & Hs & Hf & H). inversion Hs; inversion Hf; subst g fg.
      destruct (H (or_introl eq_refl)) as (Hg & fb & Hfb & Hc).
      rewrite GUID_eqb_refl in Hc. split; [exact Hg|].
      exists (as_VIDEOINFOHEADER fb). rewrite Hfb. auto.
  - destruct (GUID_eqb fg FORMAT_VideoInfo2) eqn:E2.
    + apply GUID_eqb_eq in E2. subst fg. rewrite Hinfo. split.
      * intros (Hs & bmi & Hb & Hc). split; [reflexivity|].
        exists sg, FORMAT_VideoInfo2. repeat split; auto.
        destruct (Format m) as [fb|]; [|discriminate Hb].
        inversion Hb. subst bmi. exists fb. rewrite E1. auto.
      * intros (_ & g & fg & Hs & Hf & H). inversion Hs; inversion Hf; subst g fg.
        destruct (H (or_intror eq_refl)) as (Hg & fb & Hfb & Hc).
        rewrite E1 in Hc. split; [exact Hg|].
        exists (as_VIDEOINFOHEADER2 fb). rewrite Hfb. auto.
    + apply GUID_eqb_neq in E1, E2. split; [|reflexivity].
      intros _. split; [reflexivity|]. exists sg, fg.
      repeat split; destruct H; contradiction.
Qed.

(** X14.  An accepted proposal in one of the two video-info layouts stores the
    width of the header it was judged by and the 32-bit [abs] of its height,
    and keeps the Requested Configuration.  For every height except the most
    negative 32-bit value that is the magnitude of the height: a top-down
    (negative) height is stored positive. *)
Theorem video_accepted_dimensions :
  forall (pin : Video.VideoSinkPin) (m : CMediaType)
         (format_guid : GUID) (fb : FormatBlock),
    FormatType m = Some format_guid ->
    format_guid = FORMAT_VideoInfo \/ format_guid = FORMAT_VideoInfo2 ->
    Format m = Some fb ->
    result (Video.VideoSinkPin_CheckMediaType pin m) = S_OK ->
    let bmi := video_view format_guid fb in
    let pin' := post (Video.VideoSinkPin_CheckMediaType pin m) in
    Video.actual_config_ pin' = mkVideoConfig (biWidth bmi) (abs32 (biHeight bmi)) /\
    Video.requested_config_ pin' = Video.requested_config_ pin /\
    (- 2 ^ 31 < biHeight bmi < 2 ^ 31 ->
       height (Video.actual_config_ pin') = Z.abs (biHeight bmi) /\
       0 <= height (Video.actual_config_ pin')).
Proof.
  intros pin m fg fb Hf Hfg Hfb Hok bmi pin'.
  assert (Hpost : pin' = Video.mkPin (mkVideoConfig (biWidth bmi) (abs32 (biHeight bmi)))
                           (Video.requested_config_ pin)).
  { subst pin' bmi. revert Hok. unfold Video.VideoSinkPin_CheckMediaType, video_view.
    destruct (MajorType m) as [tg|]; [|discriminate].
    destruct (negb (GUID_eqb tg MEDIATYPE_Video)); [discriminate|].
    destruct (Subtype m) as [sg|]; [|discriminate].
    rewrite Hf, Hfb. cbn [option_map].
    assert (Hinfo : forall bmi,
      result (Video.check_video_info pin sg (Some bmi)) = S_OK ->
      post (Video.check_video_info pin sg (Some bmi)) =
      Video.mkPin (mkVideoConfig (biWidth bmi) (abs32 (biHeight bmi)))
        (Video.requested_config_ pin)).
    { intros b. unfold Video.check_video_info.
      destruct (negb (GUID_eqb sg MEDIASUBTYPE_I420) ||
                negb (biCompression b =? MAKEFOURCC 73 52 50 48));
        [discriminate | reflexivity]. }
    destruct (GUID_eqb fg FORMAT_VideoInfo) eqn:E1; [apply Hinfo|].
    destruct Hfg as [-> | ->]; [rewrite GUID_eqb_refl in E1; discriminate E1|].
    rewrite GUID_eqb_refl. apply Hinfo. }
  rewrite Hpost. cbn [Video.actual_config_ Video.requested_config_ height].
  repeat split; rewrite abs32_in_range by assumption; [reflexivity | lia].
Qed.

Lemma video_accepted_dimensions_witness :
  let pin' := post (Video.VideoSinkPin_CheckMediaType video_pin_empty mt_video_I420) in
  Video.actual_config_ pin' = mkVideoConfig 640 480 /\
  0 <= height (Video.actual_config_ pin').
Proof.
  intros pin'.
  assert (Hr : - 2 ^ 31 < -480 < 2 ^ 31) by (split; reflexivity).
  destruct (video_accepted_dimensions video_pin_empty mt_video_I420
              FORMAT_VideoInfo
              (mkFormatBlock bmi_I420_640x480 (mkBMI 0 0 0)
                 (AudioMediaType.mk 0 0 0 0 0 0 0 0))
              eq_refl (or_introl eq_refl) eq_refl eq_refl) as (H1 & _ & H3).
  split; [exact H1 | exact (proj2 (H3 Hr))].
Defined.

(** X15.  The answers of the video enumeration: end-of-list for every index other
    than 0, negative ones included; [E_OUTOFMEMORY] for index 0 when no
    format buffer could be allocated; [S_OK] otherwise.  Unless it answers
    [S_OK] the caller's media type is untouched and nothing is written. *)
Theorem VideoSinkPin_GetMediaType_answers :
  forall (kI420BitCount : Z) (DIBSIZE : VIH.BITMAPINFOHEADER -> Z)
         (other_casts : BITMAPINFOHEADER * AudioMediaType.t)
         (pin : Video.VideoSinkPin) (type_index : Z) (m : CMediaType)
         (format_buffer : bool),
    let o := Video.VideoSinkPin_GetMediaType kI420BitCount DIBSIZE other_casts
               pin type_index m format_buffer in
    (result o = VFW_S_NO_MORE_ITEMS <-> type_index <> 0) /\
    (result o = E_OUTOFMEMORY <-> type_index = 0 /\ format_buffer = false) /\
    (result o = S_OK <-> type_index = 0 /\ format_buffer = true) /\
    (result o <> S_OK -> post o = (m, None)).
Proof.
  intros bc D oc pin i m fbuf o. subst o. unfold Video.VideoSinkPin_GetMediaType.
  destruct (Z.eqb_spec i 0) as [E | E]; simpl.
  - destruct fbuf; simpl; repeat split; intros; try discriminate;
      try congruence; try tauto;
      match goal with
      | H : _ /\ _ |- _ => destruct H; try discriminate; try congruence
      end.
  - repeat split; intros; try discriminate; try congruence; try tauto;
      match goal with
      | H : _ /\ _ |- _ => destruct H; try discriminate; try congruence
      end.
Qed.

(** X16.  The one format the video pin advertises: I420 behind a [VIDEOINFOHEADER]
    with the requested width and height, one plane, empty source and target
    rectangles and the image size as sample size.  Offered back to a pin it
    is accepted, and the Actual Configuration becomes the requested width
    and the 32-bit [abs] of the requested height. *)
Theorem video_advertised_format_negotiates :
  forall (kI420BitCount : Z) (DIBSIZE : VIH.BITMAPINFOHEADER -> Z)
         (other_casts : BITMAPINFOHEADER * AudioMediaType.t)
         (pin pin' : Video.VideoSinkPin) (m : CMediaType),
    let o := Video.VideoSinkPin_GetMediaType kI420BitCount DIBSIZE other_casts
               pin 0 m true in
    let requested := Video.requested_config_ pin in
    exists video_info,
      result o = S_OK /\
      snd (post o) = Some (video_info, VIH.biSizeImage (VIH.bmiHeader video_info)) /\
      VIH.biWidth (VIH.bmiHeader video_info) = width requested /\
      VIH.biHeight (VIH.bmiHeader video_info) = height requested /\
      VIH.biCompression (VIH.bmiHeader video_info) = FOURCC_I420 /\
      VIH.biBitCount (VIH.bmiHeader video_info) = kI420BitCount /\
      VIH.biPlanes (VIH.bmiHeader video_info) = 1 /\
      VIH.rcSource video_info = VIH.mkRECT 0 0 0 0 /\
      VIH.rcTarget video_info = VIH.mkRECT 0 0 0 0 /\
      result (Video.VideoSinkPin_CheckMediaType pin' (fst (post o))) = S_OK /\
      post (Video.VideoSinkPin_CheckMediaType pin' (fst (post o))) =
        Video.mkPin (mkVideoConfig (width requested) (abs32 (height requested)))
                    (Video.requested_config_ pin').
Proof.
  intros bc D oc pin pin' m o requested.
  exists (match snd (post o) with
          | Some (video_info, _) => video_info
          | None => VIH.zero
          end).
  subst o requested. repeat split.
Qed.

(* ------------------------------------------------------------------------- *)
(** ** Construction and pin lookup *)

(** X17.  A filter has a pin to hand out exactly when its constructor reported
    [S_OK], which it does exactly when it was given a callback and the pin
    could be allocated; and [GetPin] hands it out for index 0 only.  A
    missing callback is reported as [E_INVALIDARG] whether or not memory is
    available.  Audio and video alike. *)
Theorem GetPin_after_construction :
  forall (callback : option (AudioBuffer -> Z)) (frame_callback : bool)
         (pin_allocated : bool) (index : Z),
    let a := Audio.AudioSinkFilter_new callback pin_allocated in
    let v := Video.VideoSinkFilter_new frame_callback pin_allocated in
    (fst a = S_OK <-> callback <> None /\ pin_allocated = true) /\
    (fst a = E_INVALIDARG <-> callback = None) /\
    (Audio.AudioSinkFilter_GetPin (snd a) index <> None <->
       index = 0 /\ fst a = S_OK) /\
    (fst v = S_OK <-> frame_callback = true /\ pin_allocated = true) /\
    (fst v = E_INVALIDARG <-> frame_callback = false) /\
    (Video.VideoSinkFilter_GetPin (snd v) index <> None <->
       index = 0 /\ fst v = S_OK).
Proof.
  intros callback frame_callback pin_allocated index.
  unfold Audio.AudioSinkFilter_new, Video.VideoSinkFilter_new,
         Audio.AudioSinkFilter_GetPin, Video.VideoSinkFilter_GetPin.
  destruct callback as [cb|], frame_callback, pin_allocated;
    destruct (Z.eqb_spec index 0) as [E | E]; simpl;
    repeat split; intros; try discriminate; try congruence; try tauto;
    repeat match goal with
           | H : _ /\ _ |- _ => destruct H
           end;
    try discriminate; try congruence.
Qed.

(* ------------------------------------------------------------------------- *)
(** ** Enumeration and construction on concrete inputs *)

Example video_320x240_advertised :
  let o := Video.VideoSinkPin_GetMediaType 12 DIBSIZE_model no_other_casts
             video_pin_320x240_top_down 0 mt_pcm true in
  result o = S_OK /\
  option_map snd (snd (post o)) = Some 115200 /\
  Video.actual_config_
    (post (Video.VideoSinkPin_CheckMediaType video_pin_320x240_top_down
             (fst (post o)))) = mkVideoConfig 320 240.
Proof. repeat split. Qed.

Example video_second_format_is_end_of_list :
  result (Video.VideoSinkPin_GetMediaType 12 DIBSIZE_model no_other_casts
            video_pin_320x240 1 mt_pcm true) = VFW_S_NO_MORE_ITEMS /\
  result (Video.VideoSinkPin_GetMediaType 12 DIBSIZE_model no_other_casts
            video_pin_320x240 (-1) mt_pcm true) = VFW_S_NO_MORE_ITEMS.
Proof. split; reflexivity. Qed.

Example audio_filter_without_callback :
  Audio.AudioSinkFilter_new None true = (E_INVALIDARG, None) /\
  Audio.AudioSinkFilter_GetPin (snd (Audio.AudioSinkFilter_new None true)) 0 = None.
Proof. split; reflexivity. Qed.
